(** * Claude Rock: session/event orchestration of the chat view

    A shallow embedding of the session store of [main.ts] and of the event
    handlers, context accounting and compaction code of the chat view
    ([ChatView.ts]).

    Conventions of the embedding:
    - JavaScript numbers that hold token counts and timestamps are [Z];
      the one real-valued intermediate ([used / limit * 100]) is a [Q],
      so the arithmetic is exact;
    - objects that the code shares by reference (the message array of a
      session, its [tokenStats] object) live in explicit heaps indexed by
      locations; a field holding such an object holds its location;
    - [crypto.randomUUID()], [Date.now()] and the current day are inputs
      of the handlers (an [Env]);
    - an [async] method runs to its end at the call: events that could
      arrive at one of its [await]s are not interleaved;
    - the DOM is reduced to the fields the control flow reads back;
    - [ClaudeService.ts] is missing: the events of the service are inputs,
      and the few service methods that the view calls are modelled from
      the specification. *)

From Stdlib Require Import ZArith QArith Qround Qminmax Lqa Ascii.
From stdpp Require Import base option list gmap strings.

Local Open Scope Z_scope.

(** ** Data model ([types.ts]) *)

Record ToolUseBlock := mkTool {
  tool_id : string;
  tool_name : string;
  tool_input : string
}.

Record SelectionContext := mkSelection {
  sel_content : string;
  sel_source : string;
  sel_filePath : string;
  sel_startLine : Z;
  sel_startCh : Z;
  sel_endLine : Z;
  sel_endCh : Z
}.

Inductive Role := User | Assistant.

#[global] Instance Role_eq_dec : EqDecision Role.
Proof. solve_decision. Defined.

Record ChatMessage := mkMessage {
  msg_id : string;
  role : Role;
  content : string;
  timestamp : Z;
  thinkingSteps : option (list ToolUseBlock);
  selectionContext : option SelectionContext
}.

Inductive ClaudeModel := Haiku45 | Sonnet45 | Opus45.

Record SessionTokenStats := mkStats {
  inputTokens : Z;
  outputTokens : Z;
  contextWindow : Z;
  cacheReadTokens : Z;
  compactCount : Z;
  lastCompactPreTokens : option Z
}.

Record ContextUsage := mkUsage {
  used : Z;
  limit : Z;
  nominal : Z;
  percentage : Z
}.

(** ** Context accounting *)

Definition CONTEXT_LIMIT : Z := 80000.

(** [AUTO_COMPACT_THRESHOLD] is 0.85; the code only uses it times 100. *)
Definition AUTO_COMPACT_THRESHOLD : Q := 85 # 100.

Definition initialTokenStats : SessionTokenStats :=
  {| inputTokens := 0;
     outputTokens := 0;
     contextWindow := 200000;
     cacheReadTokens := 0;
     compactCount := 0;
     lastCompactPreTokens := None |}.

(** [Math.round]: the nearest integer, halves towards plus infinity. *)
Definition Math_round (x : Q) : Z := Qfloor (x + (1 # 2)).

Definition calculateContextUsage (stats : SessionTokenStats) : ContextUsage :=
  let effectiveLimit := CONTEXT_LIMIT in
  let usedTokens := inputTokens stats + outputTokens stats in
  let percentage :=
    Qmin ((inject_Z usedTokens / inject_Z effectiveLimit) * 100) 100 in
  {| used := usedTokens;
     limit := effectiveLimit;
     nominal := contextWindow stats;
     percentage := Math_round percentage |}.


(** ** Sessions, the plugin store and the view ([types.ts], [main.ts],
    [ChatView.ts]) *)

(** Locations of heap-allocated arrays and objects. *)
Definition loc := nat.

(** A [ChatSession] object.  [messages] and [tokenStats] are references:
    the code assigns arrays and stats objects to these fields without
    copying, so two owners can share one object. *)
Record ChatSession := mkSession {
  session_id : string;
  cliSessionId : option string;
  messages : loc;
  createdAt : Z;
  title : option string;
  model : option ClaudeModel;
  tokenStats : option loc
}.

(** What [saveData] writes: sessions with their arrays and stats objects
    serialised by value. *)
Record SavedSession := mkSaved {
  saved_id : string;
  saved_cliSessionId : option string;
  saved_messages : list ChatMessage;
  saved_createdAt : Z;
  saved_title : option string;
  saved_model : option ClaudeModel;
  saved_tokenStats : option SessionTokenStats
}.

Record PluginData := mkData {
  data_sessions : list SavedSession;
  data_currentSessionId : option string;
  data_tokenHistory : gmap string Z
}.

(** The plugin object of [main.ts]; of the settings only [tokenHistory]
    and [defaultModel] are kept.  [persisted] is the last document
    written by [saveData]. *)
Record Plugin := mkPlugin {
  sessions : list ChatSession;
  currentSessionId : option string;
  tokenHistory : gmap string Z;
  defaultModel : ClaudeModel;
  persisted : option PluginData
}.

Record PendingMessage := mkPending {
  text : string;
  tools : list ToolUseBlock
}.

(** A call of
    [claudeService.sendMessage(prompt, sessionId, cliSessionId, model)]. *)
Record SendRequest := mkRequest {
  req_prompt : string;
  req_sessionId : string;
  req_cliSessionId : option string;
  req_model : ClaudeModel
}.

(** Modelled from the spec: the state of [ClaudeService], whose file
    [ClaudeService.ts] is missing.  The registry keeps, per session id,
    the pending (text, tools) accumulation, the resume token of the last
    Init event and whether a process is registered; [sent] logs the
    requests it was given. *)
Record Service := mkService {
  pendingMessages : gmap string PendingMessage;
  cliSessionIds : gmap string string;
  running : gset string;
  sent : list SendRequest
}.

Inductive Status :=
  | StatusIdle
  | StatusLoading
  | StatusStreaming
  | StatusError (message : string).

(** Message blocks appended to the messages container.  Thinking blocks of
    a running turn and the welcome panel are not kept. *)
Inductive ChatItem :=
  | UserItem (id : string) (content : string)
  | AssistantItem (id : string) (content : string)
  | ThinkingItem (steps : list ToolUseBlock)
  | SystemItem (text : string)
  | CompactedItem (preTokens : Z)
  | ErrorItem (text : string).

Record AttachedFile := mkAttached {
  file_name : string;
  file_content : string;
  file_type : string
}.

(** The two listeners that [runCompact] registers on the service.  They
    close over [summarySessionId] and the mutable [summary];
    [streamingOn] is false once [onStreaming] has been removed with
    [off]. *)
Record CompactListener := mkListener {
  summarySessionId : string;
  summary : string;
  streamingOn : bool
}.

(** The fields of [ClaudeChatView] that the modelled methods read or
    write.  [view_messages] and [view_tokenStats] are [this.messages] and
    [this.tokenStats]; [currentAssistantMessage] is the streaming text
    element with its text, [compactOverlayEl] and [currentThinkingSteps]
    record whether the element exists. *)
Record View := mkView {
  activeSessionId : option string;
  view_messages : loc;
  view_tokenStats : loc;
  pendingAutoCompact : bool;
  lastRecordedTokens : Z;
  compactOverlayEl : bool;
  compactSummary : option string;
  compactListeners : list CompactListener;
  isGenerating : bool;
  sessionStarted : bool;
  currentModel : ClaudeModel;
  currentAssistantMessage : option string;
  currentAssistantContent : string;
  hasReceivedText : bool;
  currentThinkingSteps : bool;
  currentMessageThinkingSteps : list ToolUseBlock;
  selectedText : option SelectionContext;
  lastSelectionContext : option SelectionContext;
  isContextPopupOpen : bool;
  status : Status;
  chat : list ChatItem;
  inputValue : string;
  contextDisabled : bool;
  thinkingEnabled : bool;
  mentionedFiles : list string;
  attachedFiles : list AttachedFile
}.

(** The whole program state: the three objects and the heap. *)
Record State := mkState {
  plugin : Plugin;
  service : Service;
  view : View;
  arrays : gmap loc (list ChatMessage);
  statsObjs : gmap loc SessionTokenStats
}.

(** *** Field updates *)

Definition set_session_id (x : string) (s : ChatSession) : ChatSession :=
  mkSession x (cliSessionId s) (messages s) (createdAt s) (title s) (model s)
  (tokenStats s).
Definition set_cliSessionId (x : option string) (s : ChatSession) :
  ChatSession := mkSession (session_id s) x (messages s) (createdAt s) (title
  s) (model s) (tokenStats s).
Definition set_messages (x : loc) (s : ChatSession) : ChatSession := mkSession
  (session_id s) (cliSessionId s) x (createdAt s) (title s) (model s)
  (tokenStats s).
Definition set_createdAt (x : Z) (s : ChatSession) : ChatSession := mkSession
  (session_id s) (cliSessionId s) (messages s) x (title s) (model s)
  (tokenStats s).
Definition set_title (x : option string) (s : ChatSession) : ChatSession :=
  mkSession (session_id s) (cliSessionId s) (messages s) (createdAt s) x
  (model s) (tokenStats s).
Definition set_model (x : option ClaudeModel) (s : ChatSession) : ChatSession
  := mkSession (session_id s) (cliSessionId s) (messages s) (createdAt s)
  (title s) x (tokenStats s).
Definition set_tokenStats (x : option loc) (s : ChatSession) : ChatSession :=
  mkSession (session_id s) (cliSessionId s) (messages s) (createdAt s) (title
  s) (model s) x.
Definition set_sessions (x : list ChatSession) (p : Plugin) : Plugin :=
  mkPlugin x (currentSessionId p) (tokenHistory p) (defaultModel p) (persisted
  p).
Definition set_currentSessionId (x : option string) (p : Plugin) : Plugin :=
  mkPlugin (sessions p) x (tokenHistory p) (defaultModel p) (persisted p).
Definition set_tokenHistory (x : gmap string Z) (p : Plugin) : Plugin :=
  mkPlugin (sessions p) (currentSessionId p) x (defaultModel p) (persisted p).
Definition set_defaultModel (x : ClaudeModel) (p : Plugin) : Plugin :=
  mkPlugin (sessions p) (currentSessionId p) (tokenHistory p) x (persisted p).
Definition set_persisted (x : option PluginData) (p : Plugin) : Plugin :=
  mkPlugin (sessions p) (currentSessionId p) (tokenHistory p) (defaultModel p)
  x.
Definition set_pendingMessages (x : gmap string PendingMessage) (c : Service)
  : Service := mkService x (cliSessionIds c) (running c) (sent c).
Definition set_cliSessionIds (x : gmap string string) (c : Service) : Service
  := mkService (pendingMessages c) x (running c) (sent c).
Definition set_running (x : gset string) (c : Service) : Service := mkService
  (pendingMessages c) (cliSessionIds c) x (sent c).
Definition set_sent (x : list SendRequest) (c : Service) : Service :=
  mkService (pendingMessages c) (cliSessionIds c) (running c) x.
Definition set_activeSessionId (x : option string) (v : View) : View := mkView
  x (view_messages v) (view_tokenStats v) (pendingAutoCompact v)
  (lastRecordedTokens v) (compactOverlayEl v) (compactSummary v)
  (compactListeners v) (isGenerating v) (sessionStarted v) (currentModel v)
  (currentAssistantMessage v) (currentAssistantContent v) (hasReceivedText v)
  (currentThinkingSteps v) (currentMessageThinkingSteps v) (selectedText v)
  (lastSelectionContext v) (isContextPopupOpen v) (status v) (chat v)
  (inputValue v) (contextDisabled v) (thinkingEnabled v) (mentionedFiles v)
  (attachedFiles v).
Definition set_view_messages (x : loc) (v : View) : View := mkView
  (activeSessionId v) x (view_tokenStats v) (pendingAutoCompact v)
  (lastRecordedTokens v) (compactOverlayEl v) (compactSummary v)
  (compactListeners v) (isGenerating v) (sessionStarted v) (currentModel v)
  (currentAssistantMessage v) (currentAssistantContent v) (hasReceivedText v)
  (currentThinkingSteps v) (currentMessageThinkingSteps v) (selectedText v)
  (lastSelectionContext v) (isContextPopupOpen v) (status v) (chat v)
  (inputValue v) (contextDisabled v) (thinkingEnabled v) (mentionedFiles v)
  (attachedFiles v).
Definition set_view_tokenStats (x : loc) (v : View) : View := mkView
  (activeSessionId v) (view_messages v) x (pendingAutoCompact v)
  (lastRecordedTokens v) (compactOverlayEl v) (compactSummary v)
  (compactListeners v) (isGenerating v) (sessionStarted v) (currentModel v)
  (currentAssistantMessage v) (currentAssistantContent v) (hasReceivedText v)
  (currentThinkingSteps v) (currentMessageThinkingSteps v) (selectedText v)
  (lastSelectionContext v) (isContextPopupOpen v) (status v) (chat v)
  (inputValue v) (contextDisabled v) (thinkingEnabled v) (mentionedFiles v)
  (attachedFiles v).
Definition set_pendingAutoCompact (x : bool) (v : View) : View := mkView
  (activeSessionId v) (view_messages v) (view_tokenStats v) x
  (lastRecordedTokens v) (compactOverlayEl v) (compactSummary v)
  (compactListeners v) (isGenerating v) (sessionStarted v) (currentModel v)
  (currentAssistantMessage v) (currentAssistantContent v) (hasReceivedText v)
  (currentThinkingSteps v) (currentMessageThinkingSteps v) (selectedText v)
  (lastSelectionContext v) (isContextPopupOpen v) (status v) (chat v)
  (inputValue v) (contextDisabled v) (thinkingEnabled v) (mentionedFiles v)
  (attachedFiles v).
Definition set_lastRecordedTokens (x : Z) (v : View) : View := mkView
  (activeSessionId v) (view_messages v) (view_tokenStats v)
  (pendingAutoCompact v) x (compactOverlayEl v) (compactSummary v)
  (compactListeners v) (isGenerating v) (sessionStarted v) (currentModel v)
  (currentAssistantMessage v) (currentAssistantContent v) (hasReceivedText v)
  (currentThinkingSteps v) (currentMessageThinkingSteps v) (selectedText v)
  (lastSelectionContext v) (isContextPopupOpen v) (status v) (chat v)
  (inputValue v) (contextDisabled v) (thinkingEnabled v) (mentionedFiles v)
  (attachedFiles v).
Definition set_compactOverlayEl (x : bool) (v : View) : View := mkView
  (activeSessionId v) (view_messages v) (view_tokenStats v)
  (pendingAutoCompact v) (lastRecordedTokens v) x (compactSummary v)
  (compactListeners v) (isGenerating v) (sessionStarted v) (currentModel v)
  (currentAssistantMessage v) (currentAssistantContent v) (hasReceivedText v)
  (currentThinkingSteps v) (currentMessageThinkingSteps v) (selectedText v)
  (lastSelectionContext v) (isContextPopupOpen v) (status v) (chat v)
  (inputValue v) (contextDisabled v) (thinkingEnabled v) (mentionedFiles v)
  (attachedFiles v).
Definition set_compactSummary (x : option string) (v : View) : View := mkView
  (activeSessionId v) (view_messages v) (view_tokenStats v)
  (pendingAutoCompact v) (lastRecordedTokens v) (compactOverlayEl v) x
  (compactListeners v) (isGenerating v) (sessionStarted v) (currentModel v)
  (currentAssistantMessage v) (currentAssistantContent v) (hasReceivedText v)
  (currentThinkingSteps v) (currentMessageThinkingSteps v) (selectedText v)
  (lastSelectionContext v) (isContextPopupOpen v) (status v) (chat v)
  (inputValue v) (contextDisabled v) (thinkingEnabled v) (mentionedFiles v)
  (attachedFiles v).
Definition set_compactListeners (x : list CompactListener) (v : View) : View
  := mkView (activeSessionId v) (view_messages v) (view_tokenStats v)
  (pendingAutoCompact v) (lastRecordedTokens v) (compactOverlayEl v)
  (compactSummary v) x (isGenerating v) (sessionStarted v) (currentModel v)
  (currentAssistantMessage v) (currentAssistantContent v) (hasReceivedText v)
  (currentThinkingSteps v) (currentMessageThinkingSteps v) (selectedText v)
  (lastSelectionContext v) (isContextPopupOpen v) (status v) (chat v)
  (inputValue v) (contextDisabled v) (thinkingEnabled v) (mentionedFiles v)
  (attachedFiles v).
Definition set_isGenerating (x : bool) (v : View) : View := mkView
  (activeSessionId v) (view_messages v) (view_tokenStats v)
  (pendingAutoCompact v) (lastRecordedTokens v) (compactOverlayEl v)
  (compactSummary v) (compactListeners v) x (sessionStarted v) (currentModel
  v) (currentAssistantMessage v) (currentAssistantContent v) (hasReceivedText
  v) (currentThinkingSteps v) (currentMessageThinkingSteps v) (selectedText v)
  (lastSelectionContext v) (isContextPopupOpen v) (status v) (chat v)
  (inputValue v) (contextDisabled v) (thinkingEnabled v) (mentionedFiles v)
  (attachedFiles v).
Definition set_sessionStarted (x : bool) (v : View) : View := mkView
  (activeSessionId v) (view_messages v) (view_tokenStats v)
  (pendingAutoCompact v) (lastRecordedTokens v) (compactOverlayEl v)
  (compactSummary v) (compactListeners v) (isGenerating v) x (currentModel v)
  (currentAssistantMessage v) (currentAssistantContent v) (hasReceivedText v)
  (currentThinkingSteps v) (currentMessageThinkingSteps v) (selectedText v)
  (lastSelectionContext v) (isContextPopupOpen v) (status v) (chat v)
  (inputValue v) (contextDisabled v) (thinkingEnabled v) (mentionedFiles v)
  (attachedFiles v).
Definition set_currentModel (x : ClaudeModel) (v : View) : View := mkView
  (activeSessionId v) (view_messages v) (view_tokenStats v)
  (pendingAutoCompact v) (lastRecordedTokens v) (compactOverlayEl v)
  (compactSummary v) (compactListeners v) (isGenerating v) (sessionStarted v)
  x (currentAssistantMessage v) (currentAssistantContent v) (hasReceivedText
  v) (currentThinkingSteps v) (currentMessageThinkingSteps v) (selectedText v)
  (lastSelectionContext v) (isContextPopupOpen v) (status v) (chat v)
  (inputValue v) (contextDisabled v) (thinkingEnabled v) (mentionedFiles v)
  (attachedFiles v).
Definition set_currentAssistantMessage (x : option string) (v : View) : View
  := mkView (activeSessionId v) (view_messages v) (view_tokenStats v)
  (pendingAutoCompact v) (lastRecordedTokens v) (compactOverlayEl v)
  (compactSummary v) (compactListeners v) (isGenerating v) (sessionStarted v)
  (currentModel v) x (currentAssistantContent v) (hasReceivedText v)
  (currentThinkingSteps v) (currentMessageThinkingSteps v) (selectedText v)
  (lastSelectionContext v) (isContextPopupOpen v) (status v) (chat v)
  (inputValue v) (contextDisabled v) (thinkingEnabled v) (mentionedFiles v)
  (attachedFiles v).
Definition set_currentAssistantContent (x : string) (v : View) : View :=
  mkView (activeSessionId v) (view_messages v) (view_tokenStats v)
  (pendingAutoCompact v) (lastRecordedTokens v) (compactOverlayEl v)
  (compactSummary v) (compactListeners v) (isGenerating v) (sessionStarted v)
  (currentModel v) (currentAssistantMessage v) x (hasReceivedText v)
  (currentThinkingSteps v) (currentMessageThinkingSteps v) (selectedText v)
  (lastSelectionContext v) (isContextPopupOpen v) (status v) (chat v)
  (inputValue v) (contextDisabled v) (thinkingEnabled v) (mentionedFiles v)
  (attachedFiles v).
Definition set_hasReceivedText (x : bool) (v : View) : View := mkView
  (activeSessionId v) (view_messages v) (view_tokenStats v)
  (pendingAutoCompact v) (lastRecordedTokens v) (compactOverlayEl v)
  (compactSummary v) (compactListeners v) (isGenerating v) (sessionStarted v)
  (currentModel v) (currentAssistantMessage v) (currentAssistantContent v) x
  (currentThinkingSteps v) (currentMessageThinkingSteps v) (selectedText v)
  (lastSelectionContext v) (isContextPopupOpen v) (status v) (chat v)
  (inputValue v) (contextDisabled v) (thinkingEnabled v) (mentionedFiles v)
  (attachedFiles v).
Definition set_currentThinkingSteps (x : bool) (v : View) : View := mkView
  (activeSessionId v) (view_messages v) (view_tokenStats v)
  (pendingAutoCompact v) (lastRecordedTokens v) (compactOverlayEl v)
  (compactSummary v) (compactListeners v) (isGenerating v) (sessionStarted v)
  (currentModel v) (currentAssistantMessage v) (currentAssistantContent v)
  (hasReceivedText v) x (currentMessageThinkingSteps v) (selectedText v)
  (lastSelectionContext v) (isContextPopupOpen v) (status v) (chat v)
  (inputValue v) (contextDisabled v) (thinkingEnabled v) (mentionedFiles v)
  (attachedFiles v).
Definition set_currentMessageThinkingSteps (x : list ToolUseBlock) (v : View)
  : View := mkView (activeSessionId v) (view_messages v) (view_tokenStats v)
  (pendingAutoCompact v) (lastRecordedTokens v) (compactOverlayEl v)
  (compactSummary v) (compactListeners v) (isGenerating v) (sessionStarted v)
  (currentModel v) (currentAssistantMessage v) (currentAssistantContent v)
  (hasReceivedText v) (currentThinkingSteps v) x (selectedText v)
  (lastSelectionContext v) (isContextPopupOpen v) (status v) (chat v)
  (inputValue v) (contextDisabled v) (thinkingEnabled v) (mentionedFiles v)
  (attachedFiles v).
Definition set_selectedText (x : option SelectionContext) (v : View) : View :=
  mkView (activeSessionId v) (view_messages v) (view_tokenStats v)
  (pendingAutoCompact v) (lastRecordedTokens v) (compactOverlayEl v)
  (compactSummary v) (compactListeners v) (isGenerating v) (sessionStarted v)
  (currentModel v) (currentAssistantMessage v) (currentAssistantContent v)
  (hasReceivedText v) (currentThinkingSteps v) (currentMessageThinkingSteps v)
  x (lastSelectionContext v) (isContextPopupOpen v) (status v) (chat v)
  (inputValue v) (contextDisabled v) (thinkingEnabled v) (mentionedFiles v)
  (attachedFiles v).
Definition set_lastSelectionContext (x : option SelectionContext) (v : View) :
  View := mkView (activeSessionId v) (view_messages v) (view_tokenStats v)
  (pendingAutoCompact v) (lastRecordedTokens v) (compactOverlayEl v)
  (compactSummary v) (compactListeners v) (isGenerating v) (sessionStarted v)
  (currentModel v) (currentAssistantMessage v) (currentAssistantContent v)
  (hasReceivedText v) (currentThinkingSteps v) (currentMessageThinkingSteps v)
  (selectedText v) x (isContextPopupOpen v) (status v) (chat v) (inputValue v)
  (contextDisabled v) (thinkingEnabled v) (mentionedFiles v) (attachedFiles
  v).
Definition set_isContextPopupOpen (x : bool) (v : View) : View := mkView
  (activeSessionId v) (view_messages v) (view_tokenStats v)
  (pendingAutoCompact v) (lastRecordedTokens v) (compactOverlayEl v)
  (compactSummary v) (compactListeners v) (isGenerating v) (sessionStarted v)
  (currentModel v) (currentAssistantMessage v) (currentAssistantContent v)
  (hasReceivedText v) (currentThinkingSteps v) (currentMessageThinkingSteps v)
  (selectedText v) (lastSelectionContext v) x (status v) (chat v) (inputValue
  v) (contextDisabled v) (thinkingEnabled v) (mentionedFiles v) (attachedFiles
  v).
Definition set_status (x : Status) (v : View) : View := mkView
  (activeSessionId v) (view_messages v) (view_tokenStats v)
  (pendingAutoCompact v) (lastRecordedTokens v) (compactOverlayEl v)
  (compactSummary v) (compactListeners v) (isGenerating v) (sessionStarted v)
  (currentModel v) (currentAssistantMessage v) (currentAssistantContent v)
  (hasReceivedText v) (currentThinkingSteps v) (currentMessageThinkingSteps v)
  (selectedText v) (lastSelectionContext v) (isContextPopupOpen v) x (chat v)
  (inputValue v) (contextDisabled v) (thinkingEnabled v) (mentionedFiles v)
  (attachedFiles v).
Definition set_chat (x : list ChatItem) (v : View) : View := mkView
  (activeSessionId v) (view_messages v) (view_tokenStats v)
  (pendingAutoCompact v) (lastRecordedTokens v) (compactOverlayEl v)
  (compactSummary v) (compactListeners v) (isGenerating v) (sessionStarted v)
  (currentModel v) (currentAssistantMessage v) (currentAssistantContent v)
  (hasReceivedText v) (currentThinkingSteps v) (currentMessageThinkingSteps v)
  (selectedText v) (lastSelectionContext v) (isContextPopupOpen v) (status v)
  x (inputValue v) (contextDisabled v) (thinkingEnabled v) (mentionedFiles v)
  (attachedFiles v).
Definition set_inputValue (x : string) (v : View) : View := mkView
  (activeSessionId v) (view_messages v) (view_tokenStats v)
  (pendingAutoCompact v) (lastRecordedTokens v) (compactOverlayEl v)
  (compactSummary v) (compactListeners v) (isGenerating v) (sessionStarted v)
  (currentModel v) (currentAssistantMessage v) (currentAssistantContent v)
  (hasReceivedText v) (currentThinkingSteps v) (currentMessageThinkingSteps v)
  (selectedText v) (lastSelectionContext v) (isContextPopupOpen v) (status v)
  (chat v) x (contextDisabled v) (thinkingEnabled v) (mentionedFiles v)
  (attachedFiles v).
Definition set_contextDisabled (x : bool) (v : View) : View := mkView
  (activeSessionId v) (view_messages v) (view_tokenStats v)
  (pendingAutoCompact v) (lastRecordedTokens v) (compactOverlayEl v)
  (compactSummary v) (compactListeners v) (isGenerating v) (sessionStarted v)
  (currentModel v) (currentAssistantMessage v) (currentAssistantContent v)
  (hasReceivedText v) (currentThinkingSteps v) (currentMessageThinkingSteps v)
  (selectedText v) (lastSelectionContext v) (isContextPopupOpen v) (status v)
  (chat v) (inputValue v) x (thinkingEnabled v) (mentionedFiles v)
  (attachedFiles v).
Definition set_thinkingEnabled (x : bool) (v : View) : View := mkView
  (activeSessionId v) (view_messages v) (view_tokenStats v)
  (pendingAutoCompact v) (lastRecordedTokens v) (compactOverlayEl v)
  (compactSummary v) (compactListeners v) (isGenerating v) (sessionStarted v)
  (currentModel v) (currentAssistantMessage v) (currentAssistantContent v)
  (hasReceivedText v) (currentThinkingSteps v) (currentMessageThinkingSteps v)
  (selectedText v) (lastSelectionContext v) (isContextPopupOpen v) (status v)
  (chat v) (inputValue v) (contextDisabled v) x (mentionedFiles v)
  (attachedFiles v).
Definition set_mentionedFiles (x : list string) (v : View) : View := mkView
  (activeSessionId v) (view_messages v) (view_tokenStats v)
  (pendingAutoCompact v) (lastRecordedTokens v) (compactOverlayEl v)
  (compactSummary v) (compactListeners v) (isGenerating v) (sessionStarted v)
  (currentModel v) (currentAssistantMessage v) (currentAssistantContent v)
  (hasReceivedText v) (currentThinkingSteps v) (currentMessageThinkingSteps v)
  (selectedText v) (lastSelectionContext v) (isContextPopupOpen v) (status v)
  (chat v) (inputValue v) (contextDisabled v) (thinkingEnabled v) x
  (attachedFiles v).
Definition set_attachedFiles (x : list AttachedFile) (v : View) : View :=
  mkView (activeSessionId v) (view_messages v) (view_tokenStats v)
  (pendingAutoCompact v) (lastRecordedTokens v) (compactOverlayEl v)
  (compactSummary v) (compactListeners v) (isGenerating v) (sessionStarted v)
  (currentModel v) (currentAssistantMessage v) (currentAssistantContent v)
  (hasReceivedText v) (currentThinkingSteps v) (currentMessageThinkingSteps v)
  (selectedText v) (lastSelectionContext v) (isContextPopupOpen v) (status v)
  (chat v) (inputValue v) (contextDisabled v) (thinkingEnabled v)
  (mentionedFiles v) x.
Definition set_plugin (x : Plugin) (st : State) : State := mkState x (service
  st) (view st) (arrays st) (statsObjs st).
Definition set_service (x : Service) (st : State) : State := mkState (plugin
  st) x (view st) (arrays st) (statsObjs st).
Definition set_view (x : View) (st : State) : State := mkState (plugin st)
  (service st) x (arrays st) (statsObjs st).
Definition set_arrays (x : gmap loc (list ChatMessage)) (st : State) : State
  := mkState (plugin st) (service st) (view st) x (statsObjs st).
Definition set_statsObjs (x : gmap loc SessionTokenStats) (st : State) : State
  := mkState (plugin st) (service st) (view st) (arrays st) x.

Definition on_plugin (f : Plugin → Plugin) (st : State) : State :=
  set_plugin (f (plugin st)) st.
Definition on_service (f : Service → Service) (st : State) : State :=
  set_service (f (service st)) st.
Definition on_view (f : View → View) (st : State) : State :=
  set_view (f (view st)) st.

(** ** JavaScript helpers *)

(** Truthiness of a string: every string but the empty one. *)
Definition truthy (s : string) : bool := bool_decide (s ≠ "").

(** [x ?? 0] and [x || 0] on an optional count: the count, or 0 when it
    is absent. *)
Definition orZero (o : option Z) : Z := default 0 o.

Definition nl : string := String (Ascii.ascii_of_nat 10) EmptyString.

(** White space as [String.prototype.trim] sees it, on one-byte
    characters: tab, line feed, vertical tab, form feed, carriage return
    and space. *)
Definition isWhiteSpace (c : Ascii.ascii) : bool :=
  let n := Ascii.nat_of_ascii c in
  ((9 <=? n)%nat && (n <=? 13)%nat) || (n =? 32)%nat.

Fixpoint trimStart (s : string) : string :=
  match s with
  | EmptyString => EmptyString
  | String c s' => if isWhiteSpace c then trimStart s' else s
  end.

Fixpoint trimEnd (s : string) : string :=
  match s with
  | EmptyString => EmptyString
  | String c s' =>
      match trimEnd s' with
      | EmptyString => if isWhiteSpace c then EmptyString else String c EmptyString
      | t => String c t
      end
  end.

Definition trim (s : string) : string := trimEnd (trimStart s).

(** [parts.join(sep)] *)
Fixpoint join (sep : string) (parts : list string) : string :=
  match parts with
  | [] => ""
  | [p] => p
  | p :: rest => p +:+ sep +:+ join sep rest
  end.

(** ** The heap *)

Definition readArray (st : State) (l : loc) : list ChatMessage :=
  default [] (arrays st !! l).

Definition readStats (st : State) (l : loc) : SessionTokenStats :=
  default initialTokenStats (statsObjs st !! l).

(** [array.push(m)] on the array at [l]. *)
Definition pushMessage (l : loc) (m : ChatMessage) (st : State) : State :=
  set_arrays (<[l := readArray st l ++ [m]]> (arrays st)) st.

(** An in-place update of the stats object at [l]. *)
Definition updateStats (l : loc) (f : SessionTokenStats → SessionTokenStats)
    (st : State) : State :=
  set_statsObjs (<[l := f (readStats st l)]> (statsObjs st)) st.

(** A new array, a new stats object. *)
Definition allocArray (ms : list ChatMessage) (st : State) : loc * State :=
  let l := fresh (dom (arrays st)) in
  (l, set_arrays (<[l := ms]> (arrays st)) st).

Definition allocStats (s : SessionTokenStats) (st : State) : loc * State :=
  let l := fresh (dom (statsObjs st)) in
  (l, set_statsObjs (<[l := s]> (statsObjs st)) st).

(** Stats fields are assigned one at a time. *)
Definition set_inputTokens (x : Z) (s : SessionTokenStats) :=
  mkStats x (outputTokens s) (contextWindow s) (cacheReadTokens s)
    (compactCount s) (lastCompactPreTokens s).
Definition set_outputTokens (x : Z) (s : SessionTokenStats) :=
  mkStats (inputTokens s) x (contextWindow s) (cacheReadTokens s)
    (compactCount s) (lastCompactPreTokens s).
Definition set_contextWindow (x : Z) (s : SessionTokenStats) :=
  mkStats (inputTokens s) (outputTokens s) x (cacheReadTokens s)
    (compactCount s) (lastCompactPreTokens s).
Definition set_cacheReadTokens (x : Z) (s : SessionTokenStats) :=
  mkStats (inputTokens s) (outputTokens s) (contextWindow s) x
    (compactCount s) (lastCompactPreTokens s).
Definition set_compactCount (x : Z) (s : SessionTokenStats) :=
  mkStats (inputTokens s) (outputTokens s) (contextWindow s)
    (cacheReadTokens s) x (lastCompactPreTokens s).
Definition set_lastCompactPreTokens (x : option Z) (s : SessionTokenStats) :=
  mkStats (inputTokens s) (outputTokens s) (contextWindow s)
    (cacheReadTokens s) (compactCount s) x.

(** ** The environment of a handler run *)

(** [uuid k] is the value of the k-th [crypto.randomUUID()] call of the
    run, [now] is [Date.now()], [today] is the ISO day of [new Date()],
    and [sendThrows] tells whether [claudeService.sendMessage] rejects. *)
Record Env := mkEnv {
  uuid : nat → string;
  now : Z;
  today : string;
  sendThrows : bool
}.

(** ** The session store ([main.ts]) *)

Definition MAX_SESSIONS : nat := 20.

Definition serialise (st : State) (s : ChatSession) : SavedSession :=
  {| saved_id := session_id s;
     saved_cliSessionId := cliSessionId s;
     saved_messages := readArray st (messages s);
     saved_createdAt := createdAt s;
     saved_title := title s;
     saved_model := model s;
     saved_tokenStats := readStats st <$> tokenStats s |}.

(** The data object built by [saveSettings]. *)
Definition pluginData (st : State) : PluginData :=
  {| data_sessions := serialise st <$> take MAX_SESSIONS (sessions (plugin st));
     data_currentSessionId := currentSessionId (plugin st);
     data_tokenHistory := tokenHistory (plugin st) |}.

(** [saveSettings]: the write is taken to happen at the call (the
    refresh of the service's CLI path and permissions is not modelled). *)
Definition saveSettings (st : State) : State :=
  on_plugin (set_persisted (Some (pluginData st))) st.

(** [sessions.find(s => s.id === sessionId)], with the index of the
    session found so that it can be updated in place. *)
Definition findSession (sessionId : string) (ss : list ChatSession)
    : option (nat * ChatSession) :=
  list_find (λ s, session_id s = sessionId) ss.

(** An assignment to fields of the session object at index [i]. *)
Definition updateSession (i : nat) (f : ChatSession → ChatSession)
    (st : State) : State :=
  on_plugin (λ p, set_sessions (alter f i (sessions p)) p) st.

Definition createNewSession (env : Env) (k : nat) (st : State)
    : ChatSession * State :=
  let '(l, st) := allocArray [] st in
  let session :=
    {| session_id := uuid env k;
       cliSessionId := None;
       messages := l;
       createdAt := now env;
       title := None;
       model := None;
       tokenStats := None |} in
  let st := on_plugin (λ p, set_sessions (session :: sessions p) p) st in
  let st := on_plugin (set_currentSessionId (Some (session_id session))) st in
  (session, saveSettings st).

Definition getCurrentSession (st : State) : option (nat * ChatSession) :=
  match currentSessionId (plugin st) with
  | None => None
  | Some cur =>
      if truthy cur then findSession cur (sessions (plugin st)) else None
  end.

Definition getAllSessions (st : State) : list ChatSession :=
  sessions (plugin st).

Definition switchToSession (sessionId : string) (st : State)
    : option ChatSession * State :=
  match findSession sessionId (sessions (plugin st)) with
  | Some (_, session) =>
      (Some session,
       saveSettings (on_plugin (set_currentSessionId (Some sessionId)) st))
  | None => (None, st)
  end.

(** [content.slice(0, 50) + (content.length > 50 ? "..." : "")] *)
Definition titleOf (content : string) : string :=
  String.substring 0 50 content
  +:+ (if (50 <? String.length content)%nat then "..." else "").

Definition updateCurrentSession (messagesRef : loc)
    (cliSessionId' : option string) (tokenStatsRef : option loc)
    (st : State) : State :=
  match getCurrentSession st with
  | Some (i, session) =>
      let st := updateSession i (set_messages messagesRef) st in
      let st := updateSession i (set_cliSessionId cliSessionId') st in
      let st :=
        match tokenStatsRef with
        | Some r => updateSession i (set_tokenStats (Some r)) st
        | None => st
        end in
      let msgs := readArray st messagesRef in
      let untitled :=
        match title session with Some t => negb (truthy t) | None => true end in
      let st :=
        if untitled && (0 <? length msgs)%nat then
          match find (λ m, bool_decide (role m = User)) msgs with
          | Some firstUserMsg =>
              updateSession i (set_title (Some (titleOf (content firstUserMsg)))) st
          | None => st
          end
        else st in
      saveSettings st
  | None => st
  end.

Definition deleteSession (sessionId : string) (st : State) : State :=
  let st :=
    on_plugin (λ p,
      set_sessions (filter (λ s, session_id s ≠ sessionId) (sessions p)) p) st in
  let st :=
    if bool_decide (currentSessionId (plugin st) = Some sessionId) then
      on_plugin (set_currentSessionId
        match sessions (plugin st) with
        | s :: _ => if truthy (session_id s) then Some (session_id s) else None
        | [] => None
        end) st
    else st in
  saveSettings st.

Definition addTokensToHistory (env : Env) (tokens : Z) (st : State) : State :=
  if tokens <=? 0 then st
  else
    let history := tokenHistory (plugin st) in
    let st :=
      on_plugin (set_tokenHistory
        (<[today env := orZero (history !! today env) + tokens]> history)) st in
    saveSettings st.

Definition getTokenHistory (st : State) : gmap string Z :=
  tokenHistory (plugin st).

(** ** The service, as the view uses it *)

(** Modelled from the spec: [getPendingMessage] exposes the in-flight
    (text, tools) accumulation of a session, if any. *)
Definition getPendingMessage (sessionId : string) (st : State)
    : option PendingMessage :=
  pendingMessages (service st) !! sessionId.

(** Modelled from the spec: [clearPendingMessage] drops it. *)
Definition clearPendingMessage (sessionId : string) (st : State) : State :=
  on_service (λ c, set_pendingMessages (delete sessionId (pendingMessages c)) c) st.

(** Modelled from the spec: [getCliSessionId] returns the resume token
    captured from the most recent Init event of the session, or null. *)
Definition getCliSessionId (sessionId : string) (st : State) : option string :=
  cliSessionIds (service st) !! sessionId.

(** Modelled from the spec: [clearSession] drops the stored resume token. *)
Definition clearSession (sessionId : string) (st : State) : State :=
  on_service (λ c, set_cliSessionIds (delete sessionId (cliSessionIds c)) c) st.

(** Modelled from the spec: [isRunning] is true iff a process handle is
    registered for the session. *)
Definition isRunning (sessionId : string) (st : State) : bool :=
  bool_decide (sessionId ∈ running (service st)).

(** Modelled from the spec: [sendMessage] registers a process for the
    session and is handed the request. *)
Definition service_sendMessage (r : SendRequest) (st : State) : State :=
  on_service (λ c,
    set_running ({[req_sessionId r]} ∪ running c)
      (set_sent (sent c ++ [r]) c)) st.

(** ** The chat view ([ChatView.ts]) *)

(** *** Small view methods *)

Definition closeContextPopup (st : State) : State :=
  on_view (set_isContextPopupOpen false) st.

(** [setStatus(status, message)]; only an error status is shown, with
    [message || "An error occurred"]. *)
Definition setStatus (s : Status) (st : State) : State :=
  on_view (set_status
    match s with
    | StatusError m => StatusError (if truthy m then m else "An error occurred")
    | _ => s
    end) st.

Definition setInputEnabled (enabled : bool) (st : State) : State :=
  on_view (set_isGenerating (negb enabled)) st.

Definition appendChat (item : ChatItem) (st : State) : State :=
  on_view (λ v, set_chat (chat v ++ [item]) v) st.

Definition addSystemMessage (t : string) (st : State) : State :=
  appendChat (SystemItem t) st.

Definition addErrorMessage (error : string) (st : State) : State :=
  appendChat (ErrorItem error) st.

Definition showCompactAnimation (st : State) : State :=
  setInputEnabled false (on_view (set_compactOverlayEl true) st).

Definition hideCompactAnimation (st : State) : State :=
  setInputEnabled true (on_view (set_compactOverlayEl false) st).

Definition createThinkingBlock (st : State) : State :=
  on_view (set_currentThinkingSteps true) st.

(** The streaming text element is created empty inside a new block. *)
Definition createStreamingTextElement (st : State) : State :=
  on_view (set_currentAssistantMessage (Some "")) (createThinkingBlock st).

(** *** Saving the view's messages into the current session *)

Definition saveCurrentSession (st : State) : State :=
  let cliSessionId :=
    match getCurrentSession st with
    | Some (_, currentSession) => getCliSessionId (session_id currentSession) st
    | None => None
    end in
  updateCurrentSession (view_messages (view st)) cliSessionId
    (Some (view_tokenStats (view st))) st.

(** *** Building the messages of a turn *)

Definition addUserMessage (env : Env) (k : nat) (content : string)
    (st : State) : State :=
  let msgId := uuid env k in
  let message :=
    {| msg_id := msgId; role := User; content := content;
       timestamp := now env; thinkingSteps := None;
       selectionContext := None |} in
  let st := pushMessage (view_messages (view st)) message st in
  appendChat (UserItem msgId content) st.

Definition prepareAssistantMessage (st : State) : State :=
  let st := on_view (set_currentAssistantContent "") st in
  let st := on_view (set_hasReceivedText false) st in
  let st := on_view (set_currentThinkingSteps false) st in
  let st := on_view (set_currentAssistantMessage None) st in
  let st := on_view (set_currentMessageThinkingSteps []) st in
  createThinkingBlock st.

(** Save current tool steps as a separate message (for grouping). *)
Definition saveToolStepsAsMessage (env : Env) (k : nat) (st : State) : State :=
  let steps := currentMessageThinkingSteps (view st) in
  if (length steps =? 0)%nat then st
  else
    let message :=
      {| msg_id := uuid env k; role := Assistant; content := "";
         timestamp := now env; thinkingSteps := Some steps;
         selectionContext := None |} in
    let st := pushMessage (view_messages (view st)) message st in
    let st := on_view (set_currentMessageThinkingSteps []) st in
    saveCurrentSession st.

Definition updateAssistantMessage (env : Env) (k : nat) (fullText : string)
    (st : State) : State :=
  let st :=
    if negb (hasReceivedText (view st)) && truthy (trim fullText) then
      let st :=
        if (0 <? length (currentMessageThinkingSteps (view st)))%nat
        then saveToolStepsAsMessage env k st else st in
      let st := on_view (set_hasReceivedText true) st in
      createStreamingTextElement st
    else st in
  match currentAssistantMessage (view st) with
  | None => st
  | Some _ =>
      let st := on_view (set_currentAssistantContent fullText) st in
      on_view (set_currentAssistantMessage (Some fullText)) st
  end.

(** Save current text as a separate message (for grouping). *)
Definition saveTextAsMessage (env : Env) (k : nat) (st : State) : State :=
  if negb (truthy (trim (currentAssistantContent (view st)))) then st
  else
    let st := on_view (set_currentAssistantMessage None) st in
    let selectionContext := lastSelectionContext (view st) in
    let msgId := uuid env k in
    let st :=
      appendChat (AssistantItem msgId (currentAssistantContent (view st))) st in
    let message :=
      {| msg_id := msgId; role := Assistant;
         content := currentAssistantContent (view st);
         timestamp := now env; thinkingSteps := None;
         selectionContext := selectionContext |} in
    let st := pushMessage (view_messages (view st)) message st in
    let st := on_view (set_currentAssistantContent "") st in
    let st := on_view (set_hasReceivedText false) st in
    saveCurrentSession st.

Definition finalizeAssistantMessage (env : Env) (k : nat) (st : State) : State :=
  let st := on_view (set_currentAssistantMessage None) st in
  let hasContent :=
    (0 <? String.length (trim (currentAssistantContent (view st))))%nat in
  let hasToolSteps :=
    (0 <? length (currentMessageThinkingSteps (view st)))%nat in
  let selectionContext := lastSelectionContext (view st) in
  let st :=
    if hasContent || hasToolSteps then
      let msgId := uuid env k in
      let st :=
        if hasContent
        then appendChat (AssistantItem msgId (currentAssistantContent (view st))) st
        else st in
      let message :=
        {| msg_id := msgId; role := Assistant;
           content := currentAssistantContent (view st);
           timestamp := now env;
           thinkingSteps :=
             if hasToolSteps
             then Some (currentMessageThinkingSteps (view st)) else None;
           selectionContext := selectionContext |} in
      let st := pushMessage (view_messages (view st)) message st in
      saveCurrentSession st
    else st in
  let st := on_view (set_currentAssistantMessage None) st in
  let st := on_view (set_currentAssistantContent "") st in
  let st := on_view (set_currentThinkingSteps false) st in
  let st := on_view (set_hasReceivedText false) st in
  on_view (set_currentMessageThinkingSteps []) st.

Definition addToolStep (env : Env) (k : nat) (tool : ToolUseBlock)
    (st : State) : State :=
  let st :=
    if hasReceivedText (view st) then
      let st := saveTextAsMessage env k st in
      let st := on_view (set_hasReceivedText false) st in
      createThinkingBlock st
    else st in
  let st :=
    if negb (currentThinkingSteps (view st)) then createThinkingBlock st else st in
  if negb (currentThinkingSteps (view st)) then st
  else
    on_view (λ v,
      set_currentMessageThinkingSteps (currentMessageThinkingSteps v ++ [tool]) v) st.

(** *** Session management *)

Definition renderMessage (m : ChatMessage) : list ChatItem :=
  match role m with
  | User => [UserItem (msg_id m) (content m)]
  | Assistant =>
      match thinkingSteps m with
      | Some (t :: ts) => [ThinkingItem (t :: ts)]
      | _ => []
      end ++ [AssistantItem (msg_id m) (content m)]
  end.

(** [loadSession(session)].  [this.messages] becomes a copy of the
    session's array; [this.tokenStats] becomes the session's own stats
    object when it has one. *)
Definition loadSession (session : ChatSession) (st : State) : State :=
  let st := on_view (set_activeSessionId (Some (session_id session))) st in
  let '(l, st) := allocArray (readArray st (messages session)) st in
  let st := on_view (set_view_messages l) st in
  let st := on_view (set_chat []) st in
  let '(r, st) :=
    match tokenStats session with
    | Some r => (r, st)
    | None => allocStats initialTokenStats st
    end in
  let st := on_view (set_view_tokenStats r) st in
  let stats := readStats st r in
  let st :=
    on_view (set_lastRecordedTokens (inputTokens stats + outputTokens stats)) st in
  let msgs := readArray st l in
  let st := on_view (set_chat (concat (renderMessage <$> msgs))) st in
  let st :=
    on_view (set_sessionStarted
      (0 <? length (readArray st (messages session)))%nat) st in
  let st :=
    on_view (set_currentModel
      (default (defaultModel (plugin st)) (model session))) st in
  setStatus StatusIdle st.

Definition loadCurrentSession (env : Env) (st : State) : State :=
  match getCurrentSession st with
  | Some (_, session) => loadSession session st
  | None =>
      let '(session, st) := createNewSession env 0 st in
      loadSession session st
  end.

Definition selectSession (sessionId : string) (st : State) : State :=
  match switchToSession sessionId st with
  | (Some session, st) => loadSession session st
  | (None, st) => st
  end.

Definition deleteSessionWithConfirm (sessionId : string) (st : State) : State :=
  if (length (sessions (plugin st)) <=? 1)%nat then st
  else
    let st := deleteSession sessionId st in
    match getCurrentSession st with
    | Some (_, currentSession) => loadSession currentSession st
    | None => st
    end.

Definition startNewChat (env : Env) (st : State) : State :=
  let '(session, st) := createNewSession env 0 st in
  let '(r, st) := allocStats initialTokenStats st in
  let st := on_view (set_view_tokenStats r) st in
  loadSession session st.

(** *** Compaction *)

Definition summaryPrompt (messagesToSummarize : string) : string :=
  "Please provide a concise summary of this conversation that captures the key context, decisions made, and current state. This summary will be used to continue the conversation in a new session."
  +:+ nl +:+ nl +:+ "Conversation:" +:+ nl +:+ messagesToSummarize
  +:+ nl +:+ nl +:+ "Provide only the summary, no additional commentary.".

Definition summaryLine (m : ChatMessage) : string :=
  (match role m with User => "User" | Assistant => "Assistant" end)
  +:+ ": " +:+ content m.

(** [runCompact].  Everything up to the awaited [sendMessage] runs at the
    call; a rejection of [sendMessage] is taken to reach the [catch]
    block at once. *)
Definition runCompact (env : Env) (k : nat) (st : State) : State :=
  let st := closeContextPopup st in
  let msgs := readArray st (view_messages (view st)) in
  if (length msgs =? 0)%nat then st
  else
    let st := showCompactAnimation st in
    let messagesToSummarize := join (nl +:+ nl) (summaryLine <$> msgs) in
    let prompt := summaryPrompt messagesToSummarize in
    let sid := "summary-" +:+ uuid env k in
    let st :=
      on_view (λ v,
        set_compactListeners (compactListeners v ++ [mkListener sid "" true]) v) st in
    if sendThrows env then hideCompactAnimation st
    else
      service_sendMessage
        {| req_prompt := prompt; req_sessionId := sid;
           req_cliSessionId := None;
           req_model := currentModel (view st) |} st.

Definition finishCompact (summary' : string) (st : State) : State :=
  let st := hideCompactAnimation st in
  let st :=
    match getCurrentSession st with
    | Some (i, currentSession) =>
        let st := updateSession i (set_cliSessionId None) st in
        let st := clearSession (session_id currentSession) st in
        let st := on_view (set_compactSummary (Some summary')) st in
        let st := on_view (set_sessionStarted false) st in
        saveSettings st
    | None => st
    end in
  let prevCompactCount :=
    compactCount (readStats st (view_tokenStats (view st))) + 1 in
  let '(r, st) := allocStats initialTokenStats st in
  let st := on_view (set_view_tokenStats r) st in
  let st := updateStats r (set_compactCount prevCompactCount) st in
  addSystemMessage "--- Context compacted ---" st.

(** The closure [onStreaming] of the compaction started with listener
    number [j]. *)
Definition compact_onStreaming (j : nat) (sessionId t : string)
    (st : State) : State :=
  match compactListeners (view st) !! j with
  | Some l =>
      if streamingOn l && bool_decide (sessionId = summarySessionId l) then
        on_view (λ v,
          set_compactListeners
            (<[j := mkListener (summarySessionId l) (summary l +:+ t) true]>
               (compactListeners v)) v) st
      else st
  | None => st
  end.

(** The closure [onComplete] of the same compaction. *)
Definition compact_onComplete (j : nat) (sessionId : string)
    (st : State) : State :=
  match compactListeners (view st) !! j with
  | Some l =>
      if bool_decide (sessionId = summarySessionId l) then
        let st :=
          on_view (λ v,
            set_compactListeners
              (<[j := mkListener (summarySessionId l) (summary l) false]>
                 (compactListeners v)) v) st in
        finishCompact (summary l) st
      else st
  | None => st
  end.

(** *** Sending a prompt *)

(** What [sendMessage] obtains from its collaborators: the prompt that
    [processSlashCommand] builds for the input, the active file's name
    and content, the text for the mentioned files, and the localized
    instruction for a selection. *)
Record SendInputs := mkInputs {
  commandPrompt : option string;
  fileContext : option (string * string);
  mentionedContext : string;
  selectionInstruction : string
}.

Definition separator : string := nl +:+ nl +:+ "---" +:+ nl +:+ nl.

Definition attachedLine (f : AttachedFile) : string :=
  (if bool_decide (file_type f ∈ ["png"; "jpg"; "jpeg"; "gif"; "webp"])
   then "[Attached image: " else "[Attached file: ")
  +:+ file_name f +:+ "]" +:+ nl +:+ file_content f.

Definition startsWithSlash (s : string) : bool :=
  match s with
  | String c _ => bool_decide (c = "/"%char)
  | EmptyString => false
  end.

(** "Add compact summary if exists": the summary is put before the
    prompt, and cleared, when this is the first message of the view's
    list. *)
Definition addCompactSummary (isFirstMessage : bool) (fullPrompt : string)
    (st : State) : string * State :=
  match compactSummary (view st) with
  | Some s =>
      if isFirstMessage && truthy s then
        ("[Previous conversation summary]:" +:+ nl +:+ s +:+ separator
         +:+ fullPrompt,
         on_view (set_compactSummary None) st)
      else (fullPrompt, st)
  | None => (fullPrompt, st)
  end.

Definition sendMessage (env : Env) (inp : SendInputs) (st : State) : State :=
  let userInput := trim (inputValue (view st)) in
  match getCurrentSession st with
  | None => st
  | Some (i, currentSession) =>
    if negb (truthy userInput) || isRunning (session_id currentSession) st
    then st
    else
      let st := on_view (set_inputValue "") st in
      let userPrompt :=
        if startsWithSlash userInput then
          match commandPrompt inp with
          | Some c => if truthy c then c else userInput
          | None => userInput
          end
        else userInput in
      let displayText := userInput in
      let isFirstMessage :=
        (length (readArray st (view_messages (view st))) =? 0)%nat in
      let st := addUserMessage env 0 displayText st in
      let st := setInputEnabled false st in
      let st := setStatus StatusLoading st in
      let st := prepareAssistantMessage st in
      let fullPrompt := userPrompt in
      let fullPrompt :=
        if negb (contextDisabled (view st)) then
          match fileContext inp with
          | Some (name, fileContent) =>
              "[Context: " +:+ name +:+ "]" +:+ nl +:+ fileContent
              +:+ separator +:+ userPrompt
          | None => fullPrompt
          end
        else fullPrompt in
      let '(fullPrompt, st) :=
        if (0 <? length (mentionedFiles (view st)))%nat then
          (if truthy (mentionedContext inp)
           then mentionedContext inp +:+ separator +:+ fullPrompt
           else fullPrompt,
           on_view (set_mentionedFiles []) st)
        else (fullPrompt, st) in
      let '(fullPrompt, st) :=
        if (0 <? length (attachedFiles (view st)))%nat then
          (join separator (attachedLine <$> attachedFiles (view st))
           +:+ separator +:+ fullPrompt,
           on_view (set_attachedFiles []) st)
        else (fullPrompt, st) in
      let '(fullPrompt, st) :=
        match selectedText (view st) with
        | Some sel =>
            ("[SELECTED TEXT MODE]" +:+ nl +:+ selectionInstruction inp
             +:+ nl +:+ nl +:+ "[Selected text from " +:+ sel_source sel +:+ "]"
             +:+ nl +:+ sel_content sel +:+ nl +:+ nl +:+ "[END OF SELECTED TEXT]"
             +:+ nl +:+ nl +:+ "[User request]" +:+ nl +:+ fullPrompt,
             on_view (set_selectedText None)
               (on_view (set_lastSelectionContext (Some sel)) st))
        | None => (fullPrompt, on_view (set_lastSelectionContext None) st)
        end in
      let '(fullPrompt, st) :=
        addCompactSummary isFirstMessage fullPrompt st in
      let cliSessionId' :=
        match getCliSessionId (session_id currentSession) st with
        | Some c => Some c
        | None => cliSessionId currentSession
        end in
      let st :=
        if negb (sessionStarted (view st)) then
          let st := on_view (set_sessionStarted true) st in
          let st := updateSession i (set_model (Some (currentModel (view st)))) st in
          saveSettings st
        else st in
      let fullPrompt :=
        if thinkingEnabled (view st) then "ultrathink: " +:+ fullPrompt
        else fullPrompt in
      service_sendMessage
        {| req_prompt := fullPrompt;
           req_sessionId := session_id currentSession;
           req_cliSessionId := cliSessionId';
           req_model := currentModel (view st) |} st
  end.

(** *** Service events and their listeners ([setupServiceListeners]) *)

Inductive ContentBlock :=
  | TextBlock (t : string)
  | ToolUse (tool : ToolUseBlock)
  | ToolResultBlock (tool_use_id : string) (c : string).

(** [ResultMessage["usage"]]; the handler reads each count with [?? 0]. *)
Record Usage := mkUsageCounts {
  input_tokens : option Z;
  output_tokens : option Z;
  cache_read_input_tokens : option Z;
  cache_creation_input_tokens : option Z
}.

Inductive Trigger := Manual | Auto.

Inductive ServiceEvent :=
  | StreamingEvent (sessionId : string) (t : string)
  | AssistantEvent (sessionId : string) (blocks : list ContentBlock)
  | ResultEvent (sessionId : string) (is_error : bool) (result : string)
  | ErrorEvent (sessionId : string) (error : string)
  | CompleteEvent (sessionId : string) (code : option Z)
  | ContextUpdateEvent (sessionId : string) (usage : option Usage)
  | CompactEvent (sessionId : string) (trigger : Trigger) (preTokens : Z)
  | ToolUseEvent (sessionId : string) (tool : ToolUseBlock)
  | RateLimitErrorEvent (sessionId : string) (resetTime : option string)
      (message : string).

Definition isActive (sessionId : string) (st : State) : bool :=
  bool_decide (activeSessionId (view st) = Some sessionId).

Definition onStreaming (env : Env) (sessionId t : string) (st : State) : State :=
  if negb (isActive sessionId st) then st
  else setStatus StatusStreaming (updateAssistantMessage env 0 t st).

Definition isTextBlock (b : ContentBlock) : bool :=
  match b with TextBlock _ => true | _ => false end.

Definition blockText (b : ContentBlock) : string :=
  match b with TextBlock t => t | _ => "" end.

Definition onAssistant (env : Env) (sessionId : string)
    (blocks : list ContentBlock) (st : State) : State :=
  if negb (isActive sessionId st) then st
  else
    let textBlocks := List.filter isTextBlock blocks in
    let t := join "" (blockText <$> textBlocks) in
    if truthy t then updateAssistantMessage env 0 t st else st.

(** The message that the result listener builds from the pending
    accumulation. *)
Definition assistantMessageOf (env : Env) (k : nat) (pending : PendingMessage)
    (st : State) : ChatMessage :=
  {| msg_id := uuid env k;
     role := Assistant;
     content := text pending;
     timestamp := now env;
     thinkingSteps :=
       if (0 <? length (tools pending))%nat then Some (tools pending) else None;
     selectionContext := lastSelectionContext (view st) |}.

(** The first half of the result listener: save the result to the
    session of the event, whichever session is displayed. *)
Definition saveResult (env : Env) (sessionId : string) (st : State) : State :=
  match findSession sessionId (sessions (plugin st)) with
  | Some (i, session) =>
      match getPendingMessage sessionId st with
      | Some pending =>
          if truthy (text pending) then
            let st :=
              pushMessage (messages session)
                (assistantMessageOf env 0 pending st) st in
            let st :=
              match getCliSessionId sessionId st with
              | Some c =>
                  if truthy c then updateSession i (set_cliSessionId (Some c)) st
                  else st
              | None => st
              end in
            let st := saveSettings st in
            clearPendingMessage sessionId st
          else st
      | None => st
      end
  | None => st
  end.

Definition onResult (env : Env) (sessionId : string) (is_error : bool)
    (result : string) (st : State) : State :=
  let isActiveSession := isActive sessionId st in
  let st := saveResult env sessionId st in
  if isActiveSession then
    let st := finalizeAssistantMessage env 1 st in
    if is_error then setStatus (StatusError result) st
    else setStatus StatusIdle st
  else st.

Definition onError (env : Env) (sessionId error : string) (st : State) : State :=
  if negb (isActive sessionId st) then st
  else
    let st := finalizeAssistantMessage env 0 st in
    let st := setStatus (StatusError error) st in
    addErrorMessage error st.

Definition onComplete (env : Env) (sessionId : string) (code : option Z)
    (st : State) : State :=
  let isActiveSession := isActive sessionId st in
  if isActiveSession then
    let st := finalizeAssistantMessage env 0 st in
    let st := setInputEnabled true st in
    if pendingAutoCompact (view st) then
      let st := on_view (set_pendingAutoCompact false) st in
      runCompact env 1 st
    else st
  else st.

(** [if (!session.tokenStats) session.tokenStats = this.initialTokenStats()] *)
Definition ensureTokenStats (i : nat) (session : ChatSession) (st : State)
    : loc * State :=
  match tokenStats session with
  | Some r => (r, st)
  | None =>
      let '(r, st) := allocStats initialTokenStats st in
      (r, updateSession i (set_tokenStats (Some r)) st)
  end.

(** "Update session token stats": the four assignments of the context
    listener to the stats object of the session. *)
Definition overwriteTokenStats (r : loc) (u : Usage) (st : State) : State :=
  let st := updateStats r (set_inputTokens (orZero (input_tokens u))) st in
  let st := updateStats r (set_outputTokens (orZero (output_tokens u))) st in
  let st := updateStats r (set_contextWindow 200000) st in
  updateStats r (set_cacheReadTokens (orZero (cache_read_input_tokens u))) st.

(** "Record token delta to history" *)
Definition recordTokenDelta (env : Env) (isActiveSession : bool) (r : loc)
    (st : State) : State :=
  let currentTotal :=
    inputTokens (readStats st r) + outputTokens (readStats st r) in
  let delta := currentTotal - lastRecordedTokens (view st) in
  if isActiveSession && (0 <? delta) then
    let st := addTokensToHistory env delta st in
    on_view (set_lastRecordedTokens currentTotal) st
  else st.

(** [usage.percentage >= ClaudeChatView.AUTO_COMPACT_THRESHOLD * 100] *)
Definition reachesThreshold (usage : ContextUsage) : bool :=
  Qle_bool (AUTO_COMPACT_THRESHOLD * 100) (inject_Z (percentage usage)).

(** "UI updates only for active session", with the check for
    auto-compact. *)
Definition showTokenStats (r : loc) (st : State) : State :=
  let st := on_view (set_view_tokenStats r) st in
  let usage' :=
    calculateContextUsage (readStats st (view_tokenStats (view st))) in
  if reachesThreshold usage' && negb (pendingAutoCompact (view st))
  then on_view (set_pendingAutoCompact true) st
  else st.

Definition onContextUpdate (env : Env) (sessionId : string)
    (usage : option Usage) (st : State) : State :=
  let isActiveSession := isActive sessionId st in
  match usage, findSession sessionId (sessions (plugin st)) with
  | Some u, Some (i, session) =>
      let '(r, st) := ensureTokenStats i session st in
      let st := overwriteTokenStats r u st in
      let st := recordTokenDelta env isActiveSession r st in
      let st := saveSettings st in
      if isActiveSession then showTokenStats r st else st
  | _, _ => st
  end.

Definition recordCompact (preTokens : Z) (s : SessionTokenStats)
    : SessionTokenStats :=
  set_lastCompactPreTokens (Some preTokens)
    (set_compactCount (compactCount s + 1) s).

(** The system message of the compact listener is kept as
    [CompactedItem preTokens] ([formatTokens] is not modelled). *)
Definition onCompact (env : Env) (sessionId : string) (trigger : Trigger)
    (preTokens : Z) (st : State) : State :=
  let isActiveSession := isActive sessionId st in
  let st :=
    match findSession sessionId (sessions (plugin st)) with
    | Some (i, session) =>
        let '(r, st) := ensureTokenStats i session st in
        let st := updateStats r (recordCompact preTokens) st in
        saveSettings st
    | None => st
    end in
  if isActiveSession then
    let st := updateStats (view_tokenStats (view st)) (recordCompact preTokens) st in
    appendChat (CompactedItem preTokens) st
  else st.

Definition onToolUse (env : Env) (sessionId : string) (tool : ToolUseBlock)
    (st : State) : State :=
  if negb (isActive sessionId st) then st else addToolStep env 0 tool st.

Definition handleRateLimitError (env : Env) (st : State) : State :=
  let st := finalizeAssistantMessage env 0 st in
  let st := setInputEnabled true st in
  setStatus StatusIdle st.

Definition onRateLimitError (env : Env) (sessionId : string) (st : State) : State :=
  if negb (isActive sessionId st) then st else handleRateLimitError env st.

(** Running the compaction closures registered before the event, in
    registration order. *)
Fixpoint runListeners (f : nat → State → State) (j n : nat) (st : State) : State :=
  match n with
  | O => st
  | S n' => runListeners f (S j) n' (f j st)
  end.

(** Delivery of one service event to the listeners: the view's listener
    first, then the closures that compactions have registered on the
    [streaming] and [complete] channels. *)
Definition emit (env : Env) (ev : ServiceEvent) (st : State) : State :=
  let n := length (compactListeners (view st)) in
  match ev with
  | StreamingEvent sid t =>
      runListeners (λ j, compact_onStreaming j sid t) 0 n (onStreaming env sid t st)
  | AssistantEvent sid blocks => onAssistant env sid blocks st
  | ResultEvent sid is_error result => onResult env sid is_error result st
  | ErrorEvent sid error => onError env sid error st
  | CompleteEvent sid code =>
      runListeners (λ j, compact_onComplete j sid) 0 n (onComplete env sid code st)
  | ContextUpdateEvent sid usage => onContextUpdate env sid usage st
  | CompactEvent sid trigger preTokens => onCompact env sid trigger preTokens st
  | ToolUseEvent sid tool => onToolUse env sid tool st
  | RateLimitErrorEvent sid _ _ => onRateLimitError env sid st
  end.

(** A run of the system over a sequence of events, each with its
    environment. *)
Fixpoint run (evs : list (Env * ServiceEvent)) (st : State) : State :=
  match evs with
  | [] => st
  | (env, ev) :: rest => run rest (emit env ev st)
  end.


(** ** The service's side of a turn *)

(** Records of the agent's output stream, and the exit of its process. *)
Inductive CliRecord :=
  | InitRecord (cliSessionId : string)
  | AssistantRecord (blocks : list ContentBlock)
  | ResultRecord (is_error : bool) (result : string) (usage : option Usage)
  | ProcessExit (code : option Z).

Definition pendingOf (sessionId : string) (st : State) : PendingMessage :=
  default (mkPending "" []) (getPendingMessage sessionId st).

Definition setPending (sessionId : string) (p : PendingMessage) (st : State) : State :=
  on_service (λ c, set_pendingMessages (<[sessionId := p]> (pendingMessages c)) c) st.

(** Modelled from the spec: the decoder on one content block of an
    assistant record.  A text block is appended to the pending text and a
    Streaming event carries the cumulative text; a tool-use block is
    appended to the pending tool list and a ToolUse event is emitted at
    once. *)
Definition decodeBlock (envs : nat → Env) (sessionId : string)
    (b : ContentBlock) (n : nat) (st : State) : State :=
  let p := pendingOf sessionId st in
  match b with
  | TextBlock t =>
      let p' := mkPending (text p +:+ t) (tools p) in
      emit (envs n) (StreamingEvent sessionId (text p')) (setPending sessionId p' st)
  | ToolUse tool =>
      let p' := mkPending (text p) (tools p ++ [tool]) in
      emit (envs n) (ToolUseEvent sessionId tool) (setPending sessionId p' st)
  | ToolResultBlock _ _ => st
  end.

Fixpoint decodeBlocks (envs : nat → Env) (sessionId : string)
    (blocks : list ContentBlock) (n : nat) (st : State) : State :=
  match blocks with
  | [] => st
  | b :: rest =>
      decodeBlocks envs sessionId rest (S n) (decodeBlock envs sessionId b n st)
  end.

(** Modelled from the spec: the service on one record of the process of
    [sessionId].  An init record stores the resume token; a result record
    emits a ContextUpdate event and then a Result event; the exit of the
    process unregisters it and emits Complete. *)
Definition receive (envs : nat → Env) (sessionId : string) (r : CliRecord)
    (st : State) : State :=
  match r with
  | InitRecord token =>
      on_service (λ c,
        set_cliSessionIds (<[sessionId := token]> (cliSessionIds c)) c) st
  | AssistantRecord blocks => decodeBlocks envs sessionId blocks 0 st
  | ResultRecord is_error result usage =>
      let st := emit (envs 0%nat) (ContextUpdateEvent sessionId usage) st in
      emit (envs 1%nat) (ResultEvent sessionId is_error result) st
  | ProcessExit code =>
      let st :=
        on_service (λ c, set_running (running c ∖ {[sessionId]}) c) st in
      emit (envs 0%nat) (CompleteEvent sessionId code) st
  end.

(** ** Observations used in the statements *)

(** The messages, the stats and the resume token that the in-memory
    session [sessionId] holds. *)
Definition sessionMessages (sessionId : string) (st : State) : list ChatMessage :=
  match findSession sessionId (sessions (plugin st)) with
  | Some (_, s) => readArray st (messages s)
  | None => []
  end.

Definition sessionStats (sessionId : string) (st : State)
    : option SessionTokenStats :=
  match findSession sessionId (sessions (plugin st)) with
  | Some (_, s) => readStats st <$> tokenStats s
  | None => None
  end.

Definition sessionResumeToken (sessionId : string) (st : State) : option string :=
  match findSession sessionId (sessions (plugin st)) with
  | Some (_, s) => cliSessionId s
  | None => None
  end.

(** The stats object of a session as the context listener finds it: the
    session's own object, or a new initial one. *)
Definition statsBefore (session : ChatSession) (st : State) : SessionTokenStats :=
  match tokenStats session with
  | Some r => readStats st r
  | None => initialTokenStats
  end.

(** The stats after an absolute overwrite by the counters of [u]: the
    three counts are those of the event (0 when absent), the nominal
    window is the 200000 that the listener writes, and the compaction
    fields stay. *)
Definition overwritten (u : Usage) (old : SessionTokenStats) : SessionTokenStats :=
  {| inputTokens := orZero (input_tokens u);
     outputTokens := orZero (output_tokens u);
     contextWindow := 200000;
     cacheReadTokens := orZero (cache_read_input_tokens u);
     compactCount := compactCount old;
     lastCompactPreTokens := lastCompactPreTokens old |}.

(** The daily ledger after a delta has been offered to it by a session
    that is displayed ([b]) or not. *)
Definition historyAfter (env : Env) (b : bool) (delta : Z) (h : gmap string Z)
    : gmap string Z :=
  if b && (0 <? delta) then <[today env := orZero (h !! today env) + delta]> h
  else h.

(** The auto-compact condition on a stats object. *)
Definition threshold (stats : SessionTokenStats) : bool :=
  reachesThreshold (calculateContextUsage stats).

(** The part of the state that compaction owns: the pending flag, the
    registered closures, the overlay, the stored summary, and the
    requests handed to the service. *)
Definition compactionView (v : View) :=
  (pendingAutoCompact v, compactListeners v, compactOverlayEl v, compactSummary v).

Definition compactionState (st : State) :=
  (compactionView (view st), sent (service st)).

(** The number of compactions that went past the empty-history check. *)
Definition compactionsStarted (st : State) : nat :=
  length (compactListeners (view st)).

(** The flag, the number of compactions started and the requests sent. *)
Definition trigger (st : State) :=
  (pendingAutoCompact (view st), compactionsStarted st, sent (service st)).

(** ** Concrete runs used in the examples *)

Module Demo.

(** An environment whose identifiers are [name], [name'], ... *)
Definition env (name : string) (t : Z) : Env :=
  {| uuid := λ k, match k with O => name | S _ => name +:+ "'" end;
     now := t; today := "2026-01-15"; sendThrows := false |}.

Definition envs (name : string) (t : Z) : nat → Env :=
  λ n, env (name +:+ String (ascii_of_nat (97 + n)) "") t.

(** The plugin and the view as constructed, before [onOpen]. *)
Definition fresh : State :=
  {| plugin := mkPlugin [] None ∅ Haiku45 None;
     service := mkService ∅ ∅ ∅ [];
     view :=
       {| activeSessionId := None; view_messages := 0%nat;
          view_tokenStats := 0%nat; pendingAutoCompact := false;
          lastRecordedTokens := 0; compactOverlayEl := false;
          compactSummary := None; compactListeners := [];
          isGenerating := false; sessionStarted := false;
          currentModel := Haiku45; currentAssistantMessage := None;
          currentAssistantContent := ""; hasReceivedText := false;
          currentThinkingSteps := false; currentMessageThinkingSteps := [];
          selectedText := None; lastSelectionContext := None;
          isContextPopupOpen := false; status := StatusIdle; chat := [];
          inputValue := ""; contextDisabled := false;
          thinkingEnabled := false; mentionedFiles := [];
          attachedFiles := [] |};
     arrays := {[ 0%nat := [] ]};
     statsObjs := {[ 0%nat := initialTokenStats ]} |}.

Definition noInputs : SendInputs := mkInputs None None "" "".

Definition type (t : string) (st : State) : State :=
  on_view (set_inputValue t) st.

Definition readTool : ToolUseBlock := mkTool "toolu_1" "Read" "notes.md".
Definition grepTool : ToolUseBlock := mkTool "toolu_2" "Grep" "TODO".

Definition usage (i o : Z) : option Usage :=
  Some (mkUsageCounts (Some i) (Some o) (Some 0) (Some 0)).

(** The view opens on a new session [A]; the user sends a prompt there. *)
Definition opened : State := loadCurrentSession (env "A" 1000) fresh.
Definition asked : State :=
  sendMessage (env "u1" 1010) noInputs (type "summarise my notes" opened).

(** The user then opens a new chat [B], so that the turn of [A] goes on
    in the background. *)
Definition switched : State := startNewChat (env "B" 1020) asked.


(** The agent works for [A] while [B] is displayed: first a turn made of
    two tool uses only, then one where a text follows the tools. *)
Definition toolsOnly : list ContentBlock := [ToolUse readTool; ToolUse grepTool].
Definition toolsThenText : list ContentBlock :=
  [ToolUse readTool; ToolUse grepTool; TextBlock "Your notes cover three topics."].

Definition background (blocks : list ContentBlock) : State :=
  receive (envs "r" 1040) "A" (ResultRecord false "" (usage 1200 80))
    (receive (envs "a" 1030) "A" (AssistantRecord blocks) switched).

(** The same turns while [A] is displayed. *)
Definition foreground (blocks : list ContentBlock) : State :=
  receive (envs "r" 1040) "A" (ResultRecord false "" (usage 1200 80))
    (receive (envs "a" 1030) "A" (AssistantRecord blocks) asked).

(** A whole turn of the displayed session [A], from the init record to
    the exit of the process. *)
Definition answered : State :=
  receive (envs "x" 1050) "A" (ProcessExit (Some 0))
    (receive (envs "r" 1040) "A" (ResultRecord false "" (usage 1200 80))
       (receive (envs "a" 1030) "A"
          (AssistantRecord [TextBlock "Your notes cover three topics."])
          (receive (envs "i" 1025) "A" (InitRecord "cli-A") asked))).

(** The user asks for a compaction of [A]. *)
Definition compacting : State := runCompact (env "c1" 1100) 0 answered.

(** The summarization turn fails: an Error event, then the exit of its
    process with code 1, and no text at all. *)
Definition summaryFailed : State :=
  receive (envs "y" 1120) "summary-c1" (ProcessExit (Some 1))
    (emit (env "z" 1110) (ErrorEvent "summary-c1" "spawn claude ENOENT") compacting).

(** The summarization turn succeeds. *)
Definition compacted : State :=
  receive (envs "y" 1130) "summary-c1" (ProcessExit (Some 0))
    (receive (envs "s" 1120) "summary-c1" (ResultRecord false "" (usage 900 60))
       (receive (envs "t" 1110) "summary-c1"
          (AssistantRecord [TextBlock "The user asked about their notes."])
          compacting)).

(** The next prompt of [A] after the compaction, and the usage that the
    new agent conversation reports for it. *)
Definition followUp : State :=
  sendMessage (env "u2" 1200) noInputs (type "and the third topic?" compacted).

Definition followUpCounted : State :=
  emit (env "v" 1210) (ContextUpdateEvent "A" (usage 300 40)) followUp.

(** A store read back from disk: one session whose only message is a
    user prompt; the view opens on it. *)
Definition hello : ChatMessage :=
  mkMessage "m1" User "hello" 900 None None.

Definition restored : State :=
  loadCurrentSession (env "n" 2000)
    {| plugin :=
         mkPlugin [mkSession "S" None 1%nat 900 (Some "hello") None None]
           (Some "S") ∅ Haiku45 None;
       service := service fresh;
       view := view fresh;
       arrays := {[ 0%nat := []; 1%nat := [hello] ]};
       statsObjs := statsObjs fresh |}.

End Demo.

(** * Properties *)

(** Closed statements about concrete runs are settled by evaluation,
    one conjunct at a time. *)
Ltac by_computation :=
  cbv zeta;
  repeat (lazymatch goal with |- _ ∧ _ => split end);
  vm_compute; reflexivity.

(** ** Context usage *)





(** ** Heap and store lemmas *)

Lemma findSession_Some sid ss i s :
  findSession sid ss = Some (i, s) →
  ss !! i = Some s ∧ session_id s = sid.
Proof.
  unfold findSession. intros H. apply list_find_Some in H.
  destruct H as (Hl & Hid & _). done.
Qed.

Lemma truthy_true s : truthy s = true ↔ s ≠ "".
Proof. unfold truthy. apply bool_decide_eq_true. Qed.

(** ** The result and streaming listeners *)





(** ** Frame lemmas: what the listeners leave alone *)

Arguments reachesThreshold : simpl never.
Arguments calculateContextUsage : simpl never.

Lemma cs_on_view f st :
  (∀ v, compactionView (f v) = compactionView v) →
  compactionState (on_view f st) = compactionState st.
Proof. intros H. unfold compactionState; cbn. by rewrite H. Qed.

Lemma cs_on_service f st :
  (∀ c, sent (f c) = sent c) →
  compactionState (on_service f st) = compactionState st.
Proof. intros H. unfold compactionState; cbn. by rewrite H. Qed.

Lemma cs_on_plugin f st :
  compactionState (on_plugin f st) = compactionState st.
Proof. reflexivity. Qed.
Lemma cs_set_arrays a st :
  compactionState (set_arrays a st) = compactionState st.
Proof. reflexivity. Qed.
Lemma cs_set_statsObjs a st :
  compactionState (set_statsObjs a st) = compactionState st.
Proof. reflexivity. Qed.

Ltac cs_prim :=
  first
    [ rewrite cs_on_view by (intro; reflexivity)
    | rewrite cs_on_service by (intro; reflexivity)
    | rewrite cs_on_plugin
    | rewrite cs_set_arrays
    | rewrite cs_set_statsObjs ].

Create Rewrite HintDb cs.

Ltac cs_case :=
  match goal with
  | |- context [match (match ?x with _ => _ end) with _ => _ end] => destruct x
  | |- context [compactionState (if ?c then _ else _)] => destruct c
  | |- context [compactionState (match ?x with _ => _ end)] => destruct x
  end.

Ltac cs_solve :=
  cbv beta iota zeta;
  repeat first [ reflexivity | cs_prim | progress autorewrite with cs | cs_case ].

Lemma cs_pushMessage l m st :
  compactionState (pushMessage l m st) = compactionState st.
Proof. reflexivity. Qed.
Lemma cs_updateStats l f st :
  compactionState (updateStats l f st) = compactionState st.
Proof. reflexivity. Qed.
Lemma cs_updateSession i f st :
  compactionState (updateSession i f st) = compactionState st.
Proof. reflexivity. Qed.
Lemma cs_saveSettings st :
  compactionState (saveSettings st) = compactionState st.
Proof. reflexivity. Qed.
Lemma cs_clearPendingMessage s st :
  compactionState (clearPendingMessage s st) = compactionState st.
Proof. reflexivity. Qed.
Lemma cs_clearSession s st :
  compactionState (clearSession s st) = compactionState st.
Proof. reflexivity. Qed.
Lemma cs_setStatus s st :
  compactionState (setStatus s st) = compactionState st.
Proof. reflexivity. Qed.
Lemma cs_setInputEnabled s st :
  compactionState (setInputEnabled s st) = compactionState st.
Proof. reflexivity. Qed.
Lemma cs_appendChat s st :
  compactionState (appendChat s st) = compactionState st.
Proof. reflexivity. Qed.
Lemma cs_addErrorMessage s st :
  compactionState (addErrorMessage s st) = compactionState st.
Proof. reflexivity. Qed.
Lemma cs_addSystemMessage s st :
  compactionState (addSystemMessage s st) = compactionState st.
Proof. reflexivity. Qed.
Lemma cs_createThinkingBlock st :
  compactionState (createThinkingBlock st) = compactionState st.
Proof. reflexivity. Qed.
Lemma cs_createStreamingTextElement st :
  compactionState (createStreamingTextElement st) = compactionState st.
Proof. reflexivity. Qed.
#[local] Hint Rewrite cs_pushMessage cs_updateStats cs_updateSession
  cs_saveSettings cs_clearPendingMessage cs_clearSession cs_setStatus
  cs_setInputEnabled cs_appendChat cs_createThinkingBlock
  cs_createStreamingTextElement cs_addErrorMessage cs_addSystemMessage : cs.

Lemma cs_updateCurrentSession m c t st :
  compactionState (updateCurrentSession m c t st) = compactionState st.
Proof. unfold updateCurrentSession. cs_solve. Qed.
#[local] Hint Rewrite cs_updateCurrentSession : cs.

Lemma cs_saveCurrentSession st :
  compactionState (saveCurrentSession st) = compactionState st.
Proof. unfold saveCurrentSession. cs_solve. Qed.
#[local] Hint Rewrite cs_saveCurrentSession : cs.

Lemma cs_finalizeAssistantMessage env k st :
  compactionState (finalizeAssistantMessage env k st) = compactionState st.
Proof. unfold finalizeAssistantMessage. cs_solve. Qed.
#[local] Hint Rewrite cs_finalizeAssistantMessage : cs.

Lemma cs_saveToolStepsAsMessage env k st :
  compactionState (saveToolStepsAsMessage env k st) = compactionState st.
Proof. unfold saveToolStepsAsMessage. cs_solve. Qed.
#[local] Hint Rewrite cs_saveToolStepsAsMessage : cs.

Lemma cs_saveTextAsMessage env k st :
  compactionState (saveTextAsMessage env k st) = compactionState st.
Proof. unfold saveTextAsMessage. cs_solve. Qed.
#[local] Hint Rewrite cs_saveTextAsMessage : cs.

Lemma cs_updateAssistantMessage env k t st :
  compactionState (updateAssistantMessage env k t st) = compactionState st.
Proof. unfold updateAssistantMessage. cs_solve. Qed.
#[local] Hint Rewrite cs_updateAssistantMessage : cs.

Lemma cs_addToolStep env k t st :
  compactionState (addToolStep env k t st) = compactionState st.
Proof. unfold addToolStep. cs_solve. Qed.
#[local] Hint Rewrite cs_addToolStep : cs.

Lemma cs_saveResult env s st :
  compactionState (saveResult env s st) = compactionState st.
Proof. unfold saveResult. cs_solve. Qed.
#[local] Hint Rewrite cs_saveResult : cs.

Lemma cs_onResult env s e r st :
  compactionState (onResult env s e r st) = compactionState st.
Proof. unfold onResult. cs_solve. Qed.
Lemma cs_onStreaming env s t st :
  compactionState (onStreaming env s t st) = compactionState st.
Proof. unfold onStreaming. cs_solve. Qed.
Lemma cs_onAssistant env s t st :
  compactionState (onAssistant env s t st) = compactionState st.
Proof. unfold onAssistant. cs_solve. Qed.
Lemma cs_onError env s t st :
  compactionState (onError env s t st) = compactionState st.
Proof. unfold onError. cs_solve. Qed.
Lemma cs_onToolUse env s t st :
  compactionState (onToolUse env s t st) = compactionState st.
Proof. unfold onToolUse. cs_solve. Qed.
Lemma cs_onRateLimitError env s st :
  compactionState (onRateLimitError env s st) = compactionState st.
Proof. unfold onRateLimitError, handleRateLimitError. cs_solve. Qed.
Lemma cs_onCompact env s t p st :
  compactionState (onCompact env s t p st) = compactionState st.
Proof. unfold onCompact, ensureTokenStats, allocStats. cs_solve. Qed.

(** ** The context listener *)

Lemma findSession_alter sid ss i s f :
  findSession sid ss = Some (i, s) →
  (∀ x, session_id (f x) = session_id x) →
  findSession sid (alter f i ss) = Some (i, f s).
Proof.
  unfold findSession. intros H Hf.
  apply list_find_Some in H as (Hl & Hp & Hlt).
  apply list_find_Some. split; [| split].
  - by rewrite list_lookup_alter_eq, Hl.
  - by rewrite Hf.
  - intros j y Hj Hji. rewrite list_lookup_alter_ne in Hj by lia.
    by apply (Hlt j).
Qed.

Lemma state_eta st :
  mkState (plugin st) (service st) (view st) (arrays st) (statsObjs st) = st.
Proof. by destruct st. Qed.

Lemma plugin_eta p :
  mkPlugin (sessions p) (currentSessionId p) (tokenHistory p) (defaultModel p)
    (persisted p) = p.
Proof. by destruct p. Qed.

Lemma view_eta_tokenStats v : set_view_tokenStats (view_tokenStats v) v = v.
Proof. by destruct v. Qed.

Lemma updateStats_updateStats l f g st :
  updateStats l f (updateStats l g st) = updateStats l (f ∘ g) st.
Proof.
  unfold updateStats, readStats; cbn.
  rewrite lookup_insert_eq, insert_insert_eq. reflexivity.
Qed.

Lemma overwriteTokenStats_eq r u st :
  overwriteTokenStats r u st
  = set_statsObjs (<[r := overwritten u (readStats st r)]> (statsObjs st)) st.
Proof.
  unfold overwriteTokenStats. rewrite !updateStats_updateStats.
  reflexivity.
Qed.

Lemma overwriteTokenStats_id r u s st :
  statsObjs st !! r = Some s → overwritten u s = s →
  overwriteTokenStats r u st = st.
Proof.
  intros Hl Hs. rewrite overwriteTokenStats_eq. unfold readStats.
  rewrite Hl; cbn. rewrite Hs, insert_id by done.
  unfold set_statsObjs. apply state_eta.
Qed.

Lemma saveSettings_id st :
  persisted (plugin st) = Some (pluginData st) → saveSettings st = st.
Proof.
  intros H. unfold saveSettings, on_plugin, set_plugin, set_persisted.
  rewrite <- H, plugin_eta. apply state_eta.
Qed.

Lemma recordTokenDelta_inactive env r st :
  recordTokenDelta env false r st = st.
Proof. reflexivity. Qed.

Lemma recordTokenDelta_settled env b r st :
  inputTokens (readStats st r) + outputTokens (readStats st r)
    - lastRecordedTokens (view st) ≤ 0 →
  recordTokenDelta env b r st = st.
Proof.
  intros H. unfold recordTokenDelta.
  replace (0 <? _) with false by (symmetry; apply Z.ltb_ge; exact H).
  by rewrite andb_false_r.
Qed.

Lemma showTokenStats_eq r st :
  showTokenStats r st
  = if threshold (readStats st r) && negb (pendingAutoCompact (view st))
    then on_view (set_pendingAutoCompact true) (on_view (set_view_tokenStats r) st)
    else on_view (set_view_tokenStats r) st.
Proof. reflexivity. Qed.

Lemma showTokenStats_id r st :
  view_tokenStats (view st) = r →
  (threshold (readStats st r) = true → pendingAutoCompact (view st) = true) →
  showTokenStats r st = st.
Proof.
  intros Hr Hp. rewrite showTokenStats_eq.
  assert (E : on_view (set_view_tokenStats r) st = st).
  { unfold on_view, set_view. rewrite <- Hr, view_eta_tokenStats. apply state_eta. }
  rewrite E.
  destruct (threshold (readStats st r)); [| reflexivity].
  rewrite Hp by done. reflexivity.
Qed.

Lemma onContextUpdate_fixpoint env sid u st i s r stats :
  findSession sid (sessions (plugin st)) = Some (i, s) →
  tokenStats s = Some r →
  statsObjs st !! r = Some stats →
  overwritten u stats = stats →
  persisted (plugin st) = Some (pluginData st) →
  (isActive sid st = true →
   inputTokens stats + outputTokens stats - lastRecordedTokens (view st) ≤ 0
   ∧ view_tokenStats (view st) = r
   ∧ (threshold stats = true → pendingAutoCompact (view st) = true)) →
  onContextUpdate env sid (Some u) st = st.
Proof.
  intros Hf Hr Hl Hs Hp Ha. unfold onContextUpdate. rewrite Hf.
  unfold ensureTokenStats. rewrite Hr.
  rewrite (overwriteTokenStats_id r u stats st Hl Hs).
  assert (Hread : readStats st r = stats) by (unfold readStats; by rewrite Hl).
  destruct (isActive sid st) eqn:Hact.
  - destruct (Ha eq_refl) as (Hd & Hv & Ht).
    rewrite recordTokenDelta_settled by (by rewrite Hread).
    rewrite saveSettings_id by done.
    apply showTokenStats_id; [done |]. by rewrite Hread.
  - rewrite recordTokenDelta_inactive. by apply saveSettings_id.
Qed.

Lemma addTokensToHistory_pos env d st :
  0 < d →
  addTokensToHistory env d st
  = saveSettings (on_plugin (set_tokenHistory
      (<[today env := orZero (tokenHistory (plugin st) !! today env) + d]>
         (tokenHistory (plugin st)))) st).
Proof.
  intros Hd. unfold addTokensToHistory.
  replace (d <=? 0) with false by (symmetry; apply Z.leb_gt; exact Hd).
  reflexivity.
Qed.

Lemma contextUpdate_tail env b r st :
  let total := inputTokens (readStats st r) + outputTokens (readStats st r) in
  let delta := total - lastRecordedTokens (view st) in
  let st' :=
    let st1 := saveSettings (recordTokenDelta env b r st) in
    if b then showTokenStats r st1 else st1 in
  sessions (plugin st') = sessions (plugin st)
  ∧ currentSessionId (plugin st') = currentSessionId (plugin st)
  ∧ service st' = service st
  ∧ arrays st' = arrays st
  ∧ statsObjs st' = statsObjs st
  ∧ persisted (plugin st') = Some (pluginData st')
  ∧ activeSessionId (view st') = activeSessionId (view st)
  ∧ compactListeners (view st') = compactListeners (view st)
  ∧ compactOverlayEl (view st') = compactOverlayEl (view st)
  ∧ tokenHistory (plugin st') = historyAfter env b delta (tokenHistory (plugin st))
  ∧ lastRecordedTokens (view st')
    = (if b && (0 <? delta) then total else lastRecordedTokens (view st))
  ∧ (b = true → view_tokenStats (view st') = r)
  ∧ pendingAutoCompact (view st')
    = pendingAutoCompact (view st) || (b && threshold (readStats st r))
  ∧ (b = false → view st' = view st).
Proof.
  intros total delta st'. subst st'. unfold historyAfter.
  unfold recordTokenDelta. fold total. fold delta.
  destruct b; cbn [andb].
  - rewrite showTokenStats_eq.
    destruct (0 <? delta) eqn:Hd.
    + apply Z.ltb_lt in Hd. rewrite addTokensToHistory_pos by exact Hd.
      change (readStats (saveSettings _) r) with (readStats st r).
      change (pendingAutoCompact (view (saveSettings _)))
        with (pendingAutoCompact (view st)).
      destruct (threshold (readStats st r)),
        (pendingAutoCompact (view st)) eqn:Hp;
        cbn; repeat split; try reflexivity; try discriminate; try exact Hp.
    + change (readStats (saveSettings _) r) with (readStats st r).
      change (pendingAutoCompact (view (saveSettings _)))
        with (pendingAutoCompact (view st)).
      destruct (threshold (readStats st r)),
        (pendingAutoCompact (view st)) eqn:Hp;
        cbn; repeat split; try reflexivity; try discriminate; try exact Hp.
  - cbn. rewrite orb_false_r. repeat split; try reflexivity; try discriminate.
Qed.

Lemma session_eta_tokenStats s r :
  tokenStats s = Some r → set_tokenStats (Some r) s = s.
Proof. destruct s; cbn; intros ->; reflexivity. Qed.

Lemma fresh_stats_None st :
  statsObjs st !! fresh (dom (statsObjs st)) = None.
Proof. apply not_elem_of_dom, is_fresh. Qed.

Lemma onContextUpdate_effect env sid u st i session :
  findSession sid (sessions (plugin st)) = Some (i, session) →
  let st1 := onContextUpdate env sid (Some u) st in
  let new := overwritten u (statsBefore session st) in
  let delta := inputTokens new + outputTokens new - lastRecordedTokens (view st) in
  let b := isActive sid st in
  ∃ r,
    findSession sid (sessions (plugin st1))
    = Some (i, set_tokenStats (Some r) session)
    ∧ match tokenStats session with
      | Some r0 => r = r0
      | None => statsObjs st !! r = None
      end
    ∧ statsObjs st1 = <[r := new]> (statsObjs st)
    ∧ currentSessionId (plugin st1) = currentSessionId (plugin st)
    ∧ service st1 = service st
    ∧ arrays st1 = arrays st
    ∧ persisted (plugin st1) = Some (pluginData st1)
    ∧ activeSessionId (view st1) = activeSessionId (view st)
    ∧ compactListeners (view st1) = compactListeners (view st)
    ∧ compactOverlayEl (view st1) = compactOverlayEl (view st)
    ∧ tokenHistory (plugin st1)
      = historyAfter env b delta (tokenHistory (plugin st))
    ∧ lastRecordedTokens (view st1)
      = (if b && (0 <? delta) then inputTokens new + outputTokens new
         else lastRecordedTokens (view st))
    ∧ (b = true → view_tokenStats (view st1) = r)
    ∧ pendingAutoCompact (view st1)
      = pendingAutoCompact (view st) || (b && threshold new)
    ∧ (b = false → view st1 = view st).
Proof.
  intros Hf st1 new delta b.
  assert (Hst1 : st1 =
    let '(r, sta) := ensureTokenStats i session st in
    let stb := overwriteTokenStats r u sta in
    let stc := saveSettings (recordTokenDelta env b r stb) in
    if b then showTokenStats r stc else stc).
  { unfold st1, onContextUpdate. rewrite Hf. reflexivity. }
  clearbody st1.
  unfold ensureTokenStats in Hst1. unfold statsBefore in new.
  destruct (tokenStats session) as [r0 |] eqn:Ht.
  - exists r0.
    set (stb := overwriteTokenStats r0 u st) in *.
    assert (Hread : readStats stb r0 = new).
    { unfold stb. rewrite overwriteTokenStats_eq. unfold readStats at 1; cbn.
      by rewrite lookup_insert_eq. }
    pose proof (contextUpdate_tail env b r0 stb) as T. cbv zeta in T, Hst1.
    rewrite Hread in T. rewrite <- Hst1 in T.
    destruct T as (T1 & T2 & T3 & T4 & T5 & T6 & T7 & T8 & T9 & T10 & T11 & T12 & T13 & T14).
    assert (Hb : stb = set_statsObjs (<[r0 := new]> (statsObjs st)) st)
      by apply overwriteTokenStats_eq.
    rewrite Hb in T1, T2, T3, T4, T5, T7, T8, T9, T10, T11, T13, T14.
    cbn in T1, T2, T3, T4, T5, T7, T8, T9, T10, T11, T13, T14.
    rewrite T1, session_eta_tokenStats by exact Ht.
    repeat split; assumption.
  - set (r := fresh (dom (statsObjs st))) in *.
    exists r.
    cbn [allocStats] in Hst1. fold r in Hst1.
    set (sta := updateSession i (set_tokenStats (Some r))
                  (set_statsObjs (<[r := initialTokenStats]> (statsObjs st)) st)) in *.
    set (stb := overwriteTokenStats r u sta) in *.
    assert (Hread : readStats stb r = new).
    { unfold stb. rewrite overwriteTokenStats_eq. unfold readStats at 1; cbn.
      rewrite lookup_insert_eq; cbn. unfold readStats, sta; cbn.
      by rewrite lookup_insert_eq. }
    pose proof (contextUpdate_tail env b r stb) as T. cbv zeta in T, Hst1.
    rewrite Hread in T. rewrite <- Hst1 in T.
    destruct T as (T1 & T2 & T3 & T4 & T5 & T6 & T7 & T8 & T9 & T10 & T11 & T12 & T13 & T14).
    assert (Hb : stb = set_statsObjs (<[r := new]> (statsObjs st)) sta).
    { unfold stb. rewrite overwriteTokenStats_eq. unfold readStats, sta; cbn.
      by rewrite lookup_insert_eq, insert_insert_eq. }
    rewrite Hb in T1, T2, T3, T4, T5, T7, T8, T9, T10, T11, T13, T14.
    cbn in T1, T2, T3, T4, T5, T7, T8, T9, T10, T11, T13, T14.
    rewrite T1.
    repeat split; try assumption.
    + by apply findSession_alter.
    + apply fresh_stats_None.
Qed.

Lemma contextUpdate_idempotent env env' sid usage st :
  onContextUpdate env' sid usage (onContextUpdate env sid usage st)
  = onContextUpdate env sid usage st.
Proof.
  destruct usage as [u |]; [| reflexivity].
  destruct (findSession sid (sessions (plugin st))) as [[i session] |] eqn:Hf.
  2: { unfold onContextUpdate at 2. rewrite Hf.
       unfold onContextUpdate. by rewrite Hf. }
  destruct (onContextUpdate_effect env sid u st i session Hf)
    as (r & E1 & E2 & E3 & E4 & E5 & E6 & E7 & E8 & E9 & E10 & E11 & E12 & E13 & E14 & E15).
  set (st1 := onContextUpdate env sid (Some u) st) in *.
  set (new := overwritten u (statsBefore session st)) in *.
  apply (onContextUpdate_fixpoint env' sid u st1 i _ r new E1).
  - reflexivity.
  - rewrite E3. apply lookup_insert_eq.
  - reflexivity.
  - exact E7.
  - intros Hact.
    assert (Hb : isActive sid st = true).
    { unfold isActive in *. by rewrite <- E8. }
    rewrite Hb in *. split; [| split].
    + rewrite E12. cbn [andb].
      destruct (0 <? _) eqn:Hd; [lia |]. apply Z.ltb_ge in Hd. lia.
    + by apply E13.
    + intros Hth. rewrite E14, Hth. cbn. apply orb_true_r.
Qed.

Lemma sessionStats_effect sid st1 i s r new :
  findSession sid (sessions (plugin st1)) = Some (i, set_tokenStats (Some r) s) →
  statsObjs st1 !! r = Some new →
  sessionStats sid st1 = Some new.
Proof.
  intros Hf Hl. unfold sessionStats. rewrite Hf. cbn.
  unfold readStats. by rewrite Hl.
Qed.

(** C8: a ContextUpdate event replaces the input, output and cache-read
    counts of the session's stats by the event's values (0 for a missing
    one) and overwrites the nominal window (with the 200000 that the
    listener writes), nothing is added to the old counts; processing
    the same event a second time changes nothing at all, so the stats of
    the session are those after one processing. *)
Theorem contextUpdate_overwrites env env' sid u st i session :
  findSession sid (sessions (plugin st)) = Some (i, session) →
  let st1 := onContextUpdate env sid (Some u) st in
  let new := overwritten u (statsBefore session st) in
  sessionStats sid st1 = Some new
  ∧ inputTokens new = orZero (input_tokens u)
  ∧ outputTokens new = orZero (output_tokens u)
  ∧ cacheReadTokens new = orZero (cache_read_input_tokens u)
  ∧ contextWindow new = 200000
  ∧ onContextUpdate env' sid (Some u) st1 = st1
  ∧ sessionStats sid (onContextUpdate env' sid (Some u) st1)
    = sessionStats sid st1.
Proof.
  intros Hf st1 new.
  destruct (onContextUpdate_effect env sid u st i session Hf)
    as (r & E1 & _ & E3 & _).
  assert (Hidem : onContextUpdate env' sid (Some u) st1 = st1)
    by apply contextUpdate_idempotent.
  repeat split; try reflexivity.
  - apply (sessionStats_effect sid st1 i session r new E1).
    fold st1 in E3. rewrite E3. apply lookup_insert_eq.
  - exact Hidem.
  - by rewrite Hidem.
Qed.

(** A run of [contextUpdate_overwrites]: the background session [A] of
    the demo receives cumulative counts 1200 and 80. *)
Lemma contextUpdate_overwrites_witness :
  let e := Demo.env "v" 1030 in
  let u := mkUsageCounts (Some 1200) (Some 80) (Some 0) (Some 0) in
  sessionStats "A" (onContextUpdate e "A" (Some u) Demo.switched)
  = Some (mkStats 1200 80 200000 0 0 None).
Proof.
  intros e u.
  assert (Hf : findSession "A" (sessions (plugin Demo.switched))
               = Some (1%nat, mkSession "A" None 1%nat 1000 None (Some Haiku45) None))
    by (vm_compute; reflexivity).
  exact (proj1 (contextUpdate_overwrites e e "A" u Demo.switched _ _ Hf)).
Defined.

(** C7, counterexample: after the compaction of the demo the displayed
    session [A] reports 300 + 40 tokens for its next turn; its stats are
    updated but the day's entry of the ledger stays at 1280.  Likewise
    an event that repeats the counts already recorded for the displayed
    session leaves the ledger as it is. *)
Lemma foreground_update_not_recorded_counterexample :
  isActive "A" Demo.followUp = true
  ∧ sessionStats "A" Demo.followUpCounted = Some (mkStats 300 40 200000 0 0 None)
  ∧ getTokenHistory Demo.followUp !! "2026-01-15" = Some 1280
  ∧ getTokenHistory Demo.followUpCounted = getTokenHistory Demo.followUp
  ∧ isActive "A" Demo.answered = true
  ∧ getTokenHistory
      (emit (Demo.env "v" 1060) (ContextUpdateEvent "A" (Demo.usage 1200 80))
         Demo.answered)
    = getTokenHistory Demo.answered.
Proof. by_computation. Qed.

(** C7, amended: a ContextUpdate event for a session that is not
    displayed never changes the daily ledger; one for the displayed
    session adds to today's entry the amount by which the new total
    (input + output) exceeds the last recorded total, and leaves the
    ledger alone when it does not exceed it; the stats of the session
    are overwritten in both cases. *)
Theorem contextUpdate_ledger env sid usage st :
  let st1 := onContextUpdate env sid usage st in
  (isActive sid st = false → getTokenHistory st1 = getTokenHistory st)
  ∧ (∀ u i session,
       usage = Some u →
       findSession sid (sessions (plugin st)) = Some (i, session) →
       let new := overwritten u (statsBefore session st) in
       let delta :=
         inputTokens new + outputTokens new - lastRecordedTokens (view st) in
       sessionStats sid st1 = Some new
       ∧ (isActive sid st = true →
          getTokenHistory st1
          = if 0 <? delta
            then <[today env :=
                     orZero (getTokenHistory st !! today env) + delta]>
                   (getTokenHistory st)
            else getTokenHistory st)).
Proof.
  intros st1. split.
  - intros Hb. subst st1. destruct usage as [u |]; [| reflexivity].
    destruct (findSession sid (sessions (plugin st))) as [[i session] |] eqn:Hf.
    + destruct (onContextUpdate_effect env sid u st i session Hf)
        as (r & _ & _ & _ & _ & _ & _ & _ & _ & _ & _ & E11 & _).
      unfold getTokenHistory. rewrite E11, Hb. reflexivity.
    + unfold onContextUpdate. by rewrite Hf.
  - intros u i session -> Hf new delta.
    destruct (onContextUpdate_effect env sid u st i session Hf)
      as (r & E1 & _ & E3 & _ & _ & _ & _ & _ & _ & _ & E11 & _).
    split.
    + apply (sessionStats_effect sid st1 i session r new E1).
      fold st1 in E3. rewrite E3. apply lookup_insert_eq.
    + intros Hb. unfold getTokenHistory. fold st1 in E11. rewrite E11, Hb.
      reflexivity.
Qed.

(** A run of [contextUpdate_ledger]: the displayed session [A] of the
    demo receives its first counts, 1200 and 80, and the day's entry
    becomes 1280. *)
Lemma contextUpdate_ledger_witness :
  let e := Demo.env "v" 1030 in
  let u := mkUsageCounts (Some 1200) (Some 80) (Some 0) (Some 0) in
  isActive "A" Demo.asked = true
  ∧ getTokenHistory (onContextUpdate e "A" (Some u) Demo.asked)
    = {[ "2026-01-15" := 1280 ]}.
Proof.
  intros e u.
  assert (Hact : isActive "A" Demo.asked = true) by (vm_compute; reflexivity).
  assert (Hf : findSession "A" (sessions (plugin Demo.asked))
               = Some (0%nat, mkSession "A" None 1%nat 1000 None (Some Haiku45) None))
    by (vm_compute; reflexivity).
  split; [exact Hact |].
  rewrite (proj2 (proj2 (contextUpdate_ledger e "A" (Some u) Demo.asked)
                    u _ _ eq_refl Hf) Hact).
  vm_compute. reflexivity.
Defined.

(** ** The pending flag and the start of a compaction *)

Lemma reachesThreshold_spec usage :
  reachesThreshold usage = bool_decide (85 ≤ percentage usage).
Proof.
  unfold reachesThreshold, AUTO_COMPACT_THRESHOLD, Qle_bool; cbn.
  destruct (bool_decide_reflect (85 ≤ percentage usage)) as [H | H].
  - apply Z.leb_le. lia.
  - apply Z.leb_gt. lia.
Qed.

Lemma trigger_of_compactionState st st' :
  compactionState st' = compactionState st → trigger st' = trigger st.
Proof.
  unfold compactionState, compactionView, trigger, compactionsStarted.
  intros H. injection H as H1 H2 H3 H4 H5. by rewrite H1, H2, H5.
Qed.

Lemma trigger_finishCompact s st :
  trigger (finishCompact s st) = trigger st.
Proof.
  unfold finishCompact. cbv zeta.
  destruct (getCurrentSession (hideCompactAnimation st)) as [[i cur] |];
    reflexivity.
Qed.

Lemma trigger_compact_onComplete j sid st :
  trigger (compact_onComplete j sid st) = trigger st.
Proof.
  unfold compact_onComplete.
  destruct (compactListeners (view st) !! j) as [l |] eqn:Hl; [| reflexivity].
  destruct (bool_decide _); [| reflexivity].
  cbv zeta. rewrite trigger_finishCompact.
  unfold trigger, compactionsStarted; cbn. by rewrite length_insert.
Qed.

Lemma trigger_compact_onStreaming j sid t st :
  trigger (compact_onStreaming j sid t st) = trigger st.
Proof.
  unfold compact_onStreaming.
  destruct (compactListeners (view st) !! j) as [l |] eqn:Hl; [| reflexivity].
  destruct (_ && _); [| reflexivity].
  unfold trigger, compactionsStarted; cbn. by rewrite length_insert.
Qed.

Lemma trigger_runListeners f :
  (∀ j st, trigger (f j st) = trigger st) →
  ∀ n j st, trigger (runListeners f j n st) = trigger st.
Proof.
  intros Hf n. induction n as [| n IH]; intros j st; [reflexivity |].
  cbn. by rewrite IH, Hf.
Qed.

Lemma runCompact_flag env k st :
  pendingAutoCompact (view (runCompact env k st)) = pendingAutoCompact (view st).
Proof.
  unfold runCompact. cbv zeta.
  destruct (_ =? _)%nat; [reflexivity |]. destruct (sendThrows env); reflexivity.
Qed.

Lemma onComplete_unfold env sid code st :
  onComplete env sid code st
  = if isActive sid st then
      let st1 := setInputEnabled true (finalizeAssistantMessage env 0 st) in
      if pendingAutoCompact (view st)
      then runCompact env 1 (on_view (set_pendingAutoCompact false) st1)
      else st1
    else st.
Proof.
  unfold onComplete. destruct (isActive sid st); [| reflexivity]. cbv zeta.
  pose proof (cs_finalizeAssistantMessage env 0 st) as H.
  assert (Hp : pendingAutoCompact
                 (view (setInputEnabled true (finalizeAssistantMessage env 0 st)))
               = pendingAutoCompact (view st)).
  { unfold compactionState, compactionView in H. cbn.
    by injection H as H1 _ _ _ _. }
  by rewrite Hp.
Qed.

Lemma contextUpdate_flag env sid usage st :
  let st' := onContextUpdate env sid usage st in
  pendingAutoCompact (view st')
  = pendingAutoCompact (view st)
    || (isActive sid st
        && match usage, findSession sid (sessions (plugin st)) with
           | Some u, Some (_, session) =>
               bool_decide
                 (85 ≤ percentage (calculateContextUsage
                                     (overwritten u (statsBefore session st))))
           | _, _ => false
           end)
  ∧ compactionsStarted st' = compactionsStarted st
  ∧ sent (service st') = sent (service st).
Proof.
  intros st'. subst st'.
  destruct usage as [u |].
  2: { unfold onContextUpdate. rewrite andb_false_r, orb_false_r. done. }
  destruct (findSession sid (sessions (plugin st))) as [[i session] |] eqn:Hf.
  2: { unfold onContextUpdate. rewrite Hf, andb_false_r, orb_false_r. done. }
  destruct (onContextUpdate_effect env sid u st i session Hf)
    as (r & _ & _ & _ & _ & E5 & _ & _ & _ & E9 & _ & _ & _ & _ & E14 & _).
  unfold compactionsStarted. rewrite E14, E9, E5.
  unfold threshold. rewrite reachesThreshold_spec. done.
Qed.

Lemma onComplete_trigger env sid code st :
  let st' := onComplete env sid code st in
  pendingAutoCompact (view st')
  = pendingAutoCompact (view st) && negb (isActive sid st)
  ∧ (isActive sid st = true → pendingAutoCompact (view st) = true →
     st' = runCompact env 1
             (on_view (set_pendingAutoCompact false)
                (setInputEnabled true (finalizeAssistantMessage env 0 st))))
  ∧ (isActive sid st && pendingAutoCompact (view st) = false →
     compactionsStarted st' = compactionsStarted st
     ∧ sent (service st') = sent (service st)).
Proof.
  intros st'. subst st'.
  pose proof (trigger_of_compactionState _ _
                (cs_finalizeAssistantMessage env 0 st)) as Hfin.
  rewrite onComplete_unfold.
  generalize dependent (finalizeAssistantMessage env 0 st). intros stf Hfin.
  unfold trigger, compactionsStarted in Hfin.
  injection Hfin as Hf1 Hf2 Hf3.
  destruct (isActive sid st); cbn [negb andb].
  - split; [| split].
    + cbv zeta. destruct (pendingAutoCompact (view st)) eqn:Hp.
      * rewrite runCompact_flag. reflexivity.
      * exact Hf1.
    + intros _ ->. reflexivity.
    + intros ->. cbv zeta. unfold compactionsStarted.
      split; [exact Hf2 | exact Hf3].
  - rewrite andb_true_r. done.
Qed.

Lemma other_events_trigger env ev st :
  (∀ sid usage, ev ≠ ContextUpdateEvent sid usage) →
  (∀ sid code, ev ≠ CompleteEvent sid code) →
  trigger (emit env ev st) = trigger st.
Proof.
  intros Hnc Hncomp.
  destruct ev as [sid t | sid blocks | sid e r | sid e | sid c | sid u
                 | sid tr p | sid tool | sid rt m]; cbn [emit].
  - rewrite trigger_runListeners
      by (intros; apply trigger_compact_onStreaming).
    apply trigger_of_compactionState, cs_onStreaming.
  - apply trigger_of_compactionState, cs_onAssistant.
  - apply trigger_of_compactionState, cs_onResult.
  - apply trigger_of_compactionState, cs_onError.
  - by destruct (Hncomp sid c).
  - by destruct (Hnc sid u).
  - apply trigger_of_compactionState, cs_onCompact.
  - apply trigger_of_compactionState, cs_onToolUse.
  - apply trigger_of_compactionState, cs_onRateLimitError.
Qed.

Lemma complete_listeners_trigger sid n st :
  trigger (runListeners (λ j, compact_onComplete j sid) 0 n st) = trigger st.
Proof.
  apply (trigger_runListeners (λ j, compact_onComplete j sid)).
  intros j s. apply trigger_compact_onComplete.
Qed.

Lemma trigger_components s st :
  trigger s = trigger st →
  pendingAutoCompact (view s) = pendingAutoCompact (view st)
  ∧ compactionsStarted s = compactionsStarted st
  ∧ sent (service s) = sent (service st).
Proof. unfold trigger. intros Hs. injection Hs as H1 H2 H3. done. Qed.

(** C3, counterexample: the session [A] of the demo is in the
    background when a ContextUpdate event brings it to 68000 tokens, 85
    percent; no compaction is pending and none becomes pending. *)
Lemma background_threshold_not_flagged_counterexample :
  let st :=
    emit (Demo.env "v" 1030) (ContextUpdateEvent "A" (Demo.usage 60000 8000))
      Demo.switched in
  (percentage ∘ calculateContextUsage <$> sessionStats "A" st) = Some 85
  ∧ pendingAutoCompact (view Demo.switched) = false
  ∧ pendingAutoCompact (view st) = false.
Proof. by_computation. Qed.

(** C3, amended: the view has one pending flag.  A ContextUpdate event
    raises it exactly when the event is for the displayed session,
    carries usage for a stored session and brings the percentage to at
    least 85 (an event for a background session never raises it), and
    it starts no compaction.  A Complete event of the displayed session
    lowers the flag, and when the flag was up it runs the compaction
    right after the turn has been finalized and input re-enabled; a
    Complete event of another session, or one with the flag down, starts
    nothing.  No other event changes the flag or starts a compaction. *)
Theorem autoCompact_flag_and_trigger env ev st :
  let st' := emit env ev st in
  (∀ sid usage, ev = ContextUpdateEvent sid usage →
     pendingAutoCompact (view st')
     = pendingAutoCompact (view st)
       || (isActive sid st
           && match usage, findSession sid (sessions (plugin st)) with
              | Some u, Some (_, session) =>
                  bool_decide
                    (85 ≤ percentage (calculateContextUsage
                                        (overwritten u (statsBefore session st))))
              | _, _ => false
              end)
     ∧ compactionsStarted st' = compactionsStarted st
     ∧ sent (service st') = sent (service st))
  ∧ (∀ sid code, ev = CompleteEvent sid code →
       pendingAutoCompact (view st')
       = pendingAutoCompact (view st) && negb (isActive sid st)
       ∧ (isActive sid st = true → pendingAutoCompact (view st) = true →
          onComplete env sid code st
          = runCompact env 1
              (on_view (set_pendingAutoCompact false)
                 (setInputEnabled true (finalizeAssistantMessage env 0 st))))
       ∧ (isActive sid st && pendingAutoCompact (view st) = false →
          compactionsStarted st' = compactionsStarted st
          ∧ sent (service st') = sent (service st)))
  ∧ ((∀ sid usage, ev ≠ ContextUpdateEvent sid usage) →
     (∀ sid code, ev ≠ CompleteEvent sid code) →
     pendingAutoCompact (view st') = pendingAutoCompact (view st)
     ∧ compactionsStarted st' = compactionsStarted st
     ∧ sent (service st') = sent (service st)).
Proof.
  intros st'. split; [| split].
  - intros sid usage ->. apply contextUpdate_flag.
  - intros sid code ->. subst st'. cbn [emit].
    destruct (trigger_components _ _
                (complete_listeners_trigger sid
                   (length (compactListeners (view st)))
                   (onComplete env sid code st))) as (L1 & L2 & L3).
    rewrite L1, L2, L3. apply onComplete_trigger.
  - intros Hnc Hncomp. apply trigger_components.
    by apply other_events_trigger.
Qed.

(** A run of [autoCompact_flag_and_trigger]: the displayed session [A]
    of the demo reaches 85 percent, which raises the flag; the exit of
    its process then starts one compaction and lowers the flag. *)
Lemma autoCompact_flag_and_trigger_witness :
  let flagged :=
    emit (Demo.env "v" 1030) (ContextUpdateEvent "A" (Demo.usage 60000 8000))
      Demo.asked in
  let completed := emit (Demo.env "w" 1040) (CompleteEvent "A" (Some 0)) flagged in
  pendingAutoCompact (view flagged) = true
  ∧ compactionsStarted flagged = compactionsStarted Demo.asked
  ∧ pendingAutoCompact (view completed) = false
  ∧ compactionsStarted completed = S (compactionsStarted flagged).
Proof.
  intros flagged completed.
  pose proof (proj1 (autoCompact_flag_and_trigger (Demo.env "v" 1030)
                       (ContextUpdateEvent "A" (Demo.usage 60000 8000))
                       Demo.asked) "A" _ eq_refl) as (H1 & H2 & _).
  pose proof (proj1 (proj2 (autoCompact_flag_and_trigger (Demo.env "w" 1040)
                       (CompleteEvent "A" (Some 0)) flagged)) "A" _ eq_refl)
    as (H3 & _).
  split; [| split; [| split]].
  - unfold flagged. rewrite H1. vm_compute. reflexivity.
  - exact H2.
  - unfold completed. rewrite H3. vm_compute. reflexivity.
  - vm_compute. reflexivity.
Defined.

(** ** Compaction *)

Lemma runCompact_empty env k st :
  readArray st (view_messages (view st)) = [] →
  runCompact env k st = closeContextPopup st.
Proof.
  intros H. unfold runCompact. cbv zeta.
  change (readArray (closeContextPopup st) (view_messages (view (closeContextPopup st))))
    with (readArray st (view_messages (view st))).
  by rewrite H.
Qed.

Lemma runCompact_nonempty env k st :
  readArray st (view_messages (view st)) ≠ [] →
  runCompact env k st
  = let st1 :=
      on_view (λ v,
        set_compactListeners
          (compactListeners v ++ [mkListener ("summary-" +:+ uuid env k) "" true]) v)
        (showCompactAnimation (closeContextPopup st)) in
    if sendThrows env then hideCompactAnimation st1
    else
      service_sendMessage
        {| req_prompt :=
             summaryPrompt
               (join (nl +:+ nl)
                  (summaryLine <$> readArray st (view_messages (view st))));
           req_sessionId := "summary-" +:+ uuid env k;
           req_cliSessionId := None;
           req_model := currentModel (view st) |} st1.
Proof.
  intros H. unfold runCompact. cbv zeta.
  change (readArray (closeContextPopup st) (view_messages (view (closeContextPopup st))))
    with (readArray st (view_messages (view st))).
  destruct (readArray st (view_messages (view st))) as [| m ms] eqn:E; [done |].
  reflexivity.
Qed.

(** C6, counterexample: the session [S] of the demo holds exactly one
    message, of role user, and so does the view; running the compaction
    issues a summarization request and locks the input. *)
Lemma runCompact_single_message_counterexample :
  let st := runCompact (Demo.env "c2" 2100) 0 Demo.restored in
  sessionMessages "S" Demo.restored = [Demo.hello]
  ∧ role Demo.hello = User
  ∧ readArray Demo.restored (view_messages (view Demo.restored)) = [Demo.hello]
  ∧ sent (service Demo.restored) = []
  ∧ (req_sessionId <$> sent (service st)) = ["summary-c2"]
  ∧ isGenerating (view Demo.restored) = false
  ∧ isGenerating (view st) = true.
Proof. by_computation. Qed.

(** C6, amended: running the compaction is a no-op (it only closes the
    context popup) when the view's message list is empty; with one
    message or more it registers its listeners, locks the input and,
    unless the send fails, hands one request for a temporary session
    without resume token to the service.  The sessions and the heap are
    left as they are in every case. *)
Theorem runCompact_noop_iff_empty env k st :
  let msgs := readArray st (view_messages (view st)) in
  let st' := runCompact env k st in
  (msgs = [] → st' = closeContextPopup st)
  ∧ (msgs ≠ [] →
     compactionsStarted st' = S (compactionsStarted st)
     ∧ (sendThrows env = false →
        sent (service st')
        = sent (service st)
          ++ [ {| req_prompt :=
                    summaryPrompt (join (nl +:+ nl) (summaryLine <$> msgs));
                  req_sessionId := "summary-" +:+ uuid env k;
                  req_cliSessionId := None;
                  req_model := currentModel (view st) |} ]
        ∧ isGenerating (view st') = true
        ∧ compactOverlayEl (view st') = true))
  ∧ plugin st' = plugin st
  ∧ arrays st' = arrays st
  ∧ statsObjs st' = statsObjs st.
Proof.
  intros msgs st'. subst st'.
  destruct (decide (msgs = [])) as [He | Hne].
  - rewrite (runCompact_empty env k st He).
    split; [reflexivity |]. split; [intros Hne; by destruct Hne |].
    repeat split; reflexivity.
  - rewrite (runCompact_nonempty env k st Hne). cbv zeta.
    split; [intros He; by destruct Hne |].
    assert (Hlen : ∀ (l : list CompactListener) x, length (l ++ [x]) = S (length l)).
    { intros l x. rewrite length_app. cbn. lia. }
    destruct (sendThrows env) eqn:Hs.
    + split; [intros _; split; [apply Hlen | discriminate] |].
      repeat split; reflexivity.
    + split; [intros _; split; [apply Hlen | intros _; repeat split; reflexivity] |].
      repeat split; reflexivity.
Qed.

(** A run of [runCompact_noop_iff_empty]: compacting the newly opened,
    empty session of the demo does nothing but close the popup. *)
Lemma runCompact_noop_iff_empty_witness :
  readArray Demo.opened (view_messages (view Demo.opened)) = []
  ∧ runCompact (Demo.env "c0" 1005) 0 Demo.opened = closeContextPopup Demo.opened.
Proof.
  assert (H : readArray Demo.opened (view_messages (view Demo.opened)) = [])
    by (vm_compute; reflexivity).
  split; [exact H |].
  exact (proj1 (runCompact_noop_iff_empty (Demo.env "c0" 1005) 0 Demo.opened) H).
Defined.


Lemma getCurrentSession_Some st i cur :
  getCurrentSession st = Some (i, cur) →
  sessions (plugin st) !! i = Some cur
  ∧ currentSessionId (plugin st) = Some (session_id cur).
Proof.
  unfold getCurrentSession.
  destruct (currentSessionId (plugin st)) as [c |]; [| done].
  destruct (truthy c); [| done].
  intros H. apply findSession_Some in H as [H1 H2]. by subst.
Qed.




(** C4: in the demo the summarization turn of the compaction of [A]
    fails (an Error event, then the exit of its process with code 1 and
    no text).  The Complete event still reaches [finishCompact], with
    the empty summary: the resume token [cli-A] of the session, kept
    until then, is cleared in the session and in the service, and the
    empty string is stored as the summary; input is re-enabled. *)
Theorem failed_summary_clears_resume_token :
  sessionResumeToken "A" Demo.compacting = Some "cli-A"
  ∧ getCliSessionId "A" Demo.compacting = Some "cli-A"
  ∧ (summary <$> compactListeners (view Demo.compacting)) = [""]
  ∧ sessionResumeToken "A" Demo.summaryFailed = None
  ∧ getCliSessionId "A" Demo.summaryFailed = None
  ∧ (saved_cliSessionId <$>
       default [] (data_sessions <$> persisted (plugin Demo.summaryFailed)))
    = [None]
  ∧ compactSummary (view Demo.summaryFailed) = Some ""
  ∧ isGenerating (view Demo.summaryFailed) = false.
Proof. by_computation. Qed.

(** After a compaction the view's message list is not empty, so the next
    prompt is not a first message: the stored summary is neither put
    before the prompt nor cleared. *)
Lemma addCompactSummary_not_first fullPrompt st :
  addCompactSummary false fullPrompt st = (fullPrompt, st).
Proof.
  unfold addCompactSummary.
  by destruct (compactSummary (view st)).
Qed.

(** The [catch] path of [runCompact], for comparison: when the send is
    rejected the compaction is abandoned, the sessions, the service and
    the heap are untouched, and input is re-enabled. *)
Lemma runCompact_rejected env k st :
  sendThrows env = true →
  plugin (runCompact env k st) = plugin st
  ∧ service (runCompact env k st) = service st
  ∧ arrays (runCompact env k st) = arrays st
  ∧ statsObjs (runCompact env k st) = statsObjs st
  ∧ compactSummary (view (runCompact env k st)) = compactSummary (view st)
  ∧ (readArray st (view_messages (view st)) ≠ [] →
     isGenerating (view (runCompact env k st)) = false
     ∧ compactOverlayEl (view (runCompact env k st)) = false).
Proof.
  intros Hs. unfold runCompact. cbv zeta.
  change (readArray (closeContextPopup st) (view_messages (view (closeContextPopup st))))
    with (readArray st (view_messages (view st))).
  rewrite Hs.
  destruct (readArray st (view_messages (view st))) as [| m ms];
    repeat split; try reflexivity; done.
Qed.

(** Whatever the exit code and whatever was streamed, the Complete event
    of a summary session runs [finishCompact] with the text collected so
    far. *)
Lemma compact_onComplete_always_finishes j l st :
  compactListeners (view st) !! j = Some l →
  compact_onComplete j (summarySessionId l) st
  = finishCompact (summary l)
      (on_view (λ v,
         set_compactListeners
           (<[j := mkListener (summarySessionId l) (summary l) false]>
              (compactListeners v)) v) st).
Proof.
  intros Hl. unfold compact_onComplete. rewrite Hl.
  by rewrite bool_decide_eq_true_2.
Qed.

(** ** Tool-only turns *)

Lemma saveResult_without_text env sid st p :
  getPendingMessage sid st = Some p → text p = "" →
  saveResult env sid st = st.
Proof.
  intros Hp Ht. unfold saveResult.
  destruct (findSession sid (sessions (plugin st))) as [[i s] |]; [| done].
  rewrite Hp, Ht. reflexivity.
Qed.

(** The result listener saves nothing for a background session whose
    pending accumulation has tools but no text. *)
Lemma onResult_background_without_text env sid is_error r st p :
  isActive sid st = false →
  getPendingMessage sid st = Some p → text p = "" →
  onResult env sid is_error r st = st.
Proof.
  intros Ha Hp Ht. unfold onResult. rewrite Ha.
  by apply (saveResult_without_text env sid st p).
Qed.

(** C9: in the demo the agent performs two tool uses and no text for
    [A].  While [A] is in the background the Result event leaves the
    message list of [A] empty, in memory and in the written store, and
    the pending tools stay unsaved; while [A] is displayed the same turn
    is saved as an assistant message with empty text and the two tool
    records.  With a text block after the two tools a message with two
    thinking steps is saved in both cases. *)
Theorem background_tool_only_turn_not_saved :
  let worked :=
    receive (Demo.envs "a" 1030) "A" (AssistantRecord Demo.toolsOnly)
      Demo.switched in
  isActive "A" worked = false
  ∧ getPendingMessage "A" worked
    = Some (mkPending "" [Demo.readTool; Demo.grepTool])
  ∧ sessionMessages "A" (Demo.background Demo.toolsOnly) = []
  ∧ (saved_messages <$>
       default [] (data_sessions <$>
                     persisted (plugin (Demo.background Demo.toolsOnly))))
    = [[]; []]
  ∧ ((λ m, (role m, content m, thinkingSteps m)) <$>
       sessionMessages "A" (Demo.foreground Demo.toolsOnly))
    = [(User, "summarise my notes", None);
       (Assistant, "", Some [Demo.readTool; Demo.grepTool])]
  ∧ ((λ m, length <$> thinkingSteps m) <$>
       sessionMessages "A" (Demo.background Demo.toolsThenText))
    = [Some 2%nat]
  ∧ ((λ m, length <$> thinkingSteps m) <$>
       sessionMessages "A" (Demo.foreground Demo.toolsThenText))
    = [None; Some 2%nat; Some 2%nat; None].
Proof. by_computation. Qed.

(** ** Deleting a session *)

Lemma filter_other_ids (sid : string) (ss : list ChatSession) :
  sid ∉ session_id <$> ss →
  filter (λ s, session_id s ≠ sid) ss = ss.
Proof.
  induction ss as [| s ss IH]; [done |].
  rewrite fmap_cons. intros Hn. apply not_elem_of_cons in Hn as [Hne Hn].
  rewrite filter_cons_True by done. by rewrite IH.
Qed.

Lemma filter_length_NoDup (sid : string) (ss : list ChatSession) :
  NoDup (session_id <$> ss) →
  (length ss ≤ S (length (filter (λ s, session_id s ≠ sid) ss)))%nat.
Proof.
  induction ss as [| s ss IH]; [cbn; lia |].
  rewrite fmap_cons. intros Hnd. apply NoDup_cons in Hnd as [Hs Hnd].
  destruct (decide (session_id s = sid)) as [<- | Hne].
  - rewrite filter_cons_False by (intros H; by apply H).
    rewrite filter_other_ids by done. cbn [length]. lia.
  - rewrite filter_cons_True by done. cbn [length]. specialize (IH Hnd). lia.
Qed.

Lemma findSession_is_Some (sid : string) (ss : list ChatSession) s :
  s ∈ ss → session_id s = sid → is_Some (findSession sid ss).
Proof.
  intros Hin Hid. unfold findSession.
  by apply (list_find_elem_of _ ss s).
Qed.

Lemma loadSession_plugin session st :
  plugin (loadSession session st) = plugin st
  ∧ activeSessionId (view (loadSession session st)) = Some (session_id session).
Proof.
  unfold loadSession, allocArray, allocStats. cbv beta iota zeta.
  destruct (tokenStats session); split; reflexivity.
Qed.

Lemma getCurrentSession_plugin st st' :
  plugin st' = plugin st → getCurrentSession st' = getCurrentSession st.
Proof. unfold getCurrentSession. by intros ->. Qed.

Lemma deleteSession_plugin sid st :
  sessions (plugin (deleteSession sid st))
  = filter (λ s, session_id s ≠ sid) (sessions (plugin st))
  ∧ currentSessionId (plugin (deleteSession sid st))
    = if bool_decide (currentSessionId (plugin st) = Some sid)
      then match filter (λ s, session_id s ≠ sid) (sessions (plugin st)) with
           | s :: _ => if truthy (session_id s) then Some (session_id s) else None
           | [] => None
           end
      else currentSessionId (plugin st).
Proof.
  unfold deleteSession. cbv zeta.
  change (currentSessionId (plugin (on_plugin _ st)))
    with (currentSessionId (plugin st)).
  destruct (bool_decide (currentSessionId (plugin st) = Some sid));
    split; reflexivity.
Qed.

(** C10: on a store whose session ids are distinct and non-empty (they
    are UUIDs) and whose current session exists, deleting a session
    through the view leaves at least one session and a current session
    that exists: nothing is deleted when there is a single session, and
    when the current session is deleted the first remaining one becomes
    current.  The view then displays the current session. *)
Theorem deleteSessionWithConfirm_keeps_current sid st :
  NoDup (session_id <$> sessions (plugin st)) →
  Forall (λ s, session_id s ≠ "") (sessions (plugin st)) →
  is_Some (getCurrentSession st) →
  let st' := deleteSessionWithConfirm sid st in
  sessions (plugin st') ≠ []
  ∧ is_Some (getCurrentSession st')
  ∧ ((length (sessions (plugin st)) ≤ 1)%nat → st' = st)
  ∧ ((2 ≤ length (sessions (plugin st)))%nat →
     sessions (plugin st')
     = filter (λ s, session_id s ≠ sid) (sessions (plugin st))
     ∧ (currentSessionId (plugin st) = Some sid →
        currentSessionId (plugin st')
        = session_id <$> head (sessions (plugin st')))
     ∧ (currentSessionId (plugin st) ≠ Some sid →
        currentSessionId (plugin st') = currentSessionId (plugin st))
     ∧ activeSessionId (view st') = currentSessionId (plugin st')).
Proof.
  intros Hnd Hids [[i cur] Hcur] st'. subst st'.
  destruct (getCurrentSession_Some st i cur Hcur) as [Hi Hc].
  assert (Hne : sessions (plugin st) ≠ []).
  { intros E. rewrite E in Hi. done. }
  unfold deleteSessionWithConfirm.
  destruct (length (sessions (plugin st)) <=? 1)%nat eqn:Hlen.
  - apply Nat.leb_le in Hlen.
    split; [exact Hne |]. split; [by rewrite Hcur |].
    split; [done |]. intros H2. lia.
  - apply Nat.leb_gt in Hlen.
    destruct (deleteSession_plugin sid st) as [Hs' Hc'].
    set (std := deleteSession sid st) in *.
    set (ss' := filter (λ s, session_id s ≠ sid) (sessions (plugin st))) in *.
    assert (Hlen' : (1 ≤ length ss')%nat).
    { pose proof (filter_length_NoDup sid _ Hnd). fold ss' in H. lia. }
    assert (Hids' : Forall (λ s, session_id s ≠ "") ss').
    { apply Forall_forall. intros s Hs. apply list_elem_of_filter in Hs as [_ Hs].
      by apply (proj1 (Forall_forall _ _) Hids). }
    (* the current session after the deletion *)
    assert (Hcur' : ∃ j cur', getCurrentSession std = Some (j, cur')
                      ∧ currentSessionId (plugin std) = Some (session_id cur')
                      ∧ (currentSessionId (plugin st) = Some sid →
                         head ss' = Some cur')).
    { unfold getCurrentSession. rewrite Hc', Hs'. fold ss'.
      destruct (bool_decide_reflect (currentSessionId (plugin st) = Some sid))
        as [Heq | Hneq].
      - destruct ss' as [| s0 rest] eqn:Ess; [cbn in Hlen'; lia |].
        assert (Hs0 : session_id s0 ≠ "").
        { by apply Forall_cons in Hids' as [? _]. }
        apply truthy_true in Hs0. rewrite Hs0.
        destruct (findSession_is_Some (session_id s0) (s0 :: rest) s0)
          as [[j cur'] Hf]; [apply list_elem_of_here | done |].
        exists j, cur'. rewrite Hf.
        apply findSession_Some in Hf as Hf'. destruct Hf' as [Hj Hid].
        assert (j = 0%nat ∧ cur' = s0) as [-> ->].
        { unfold findSession in Hf. cbn in Hf.
          rewrite decide_True in Hf by done. by simplify_eq. }
        rewrite ?Hs0. done.
      - rewrite Hc. assert (Hcid : session_id cur ≠ "").
        { apply (proj1 (Forall_forall _ _) Hids). by eapply list_elem_of_lookup_2. }
        apply truthy_true in Hcid. rewrite Hcid.
        assert (Hin : cur ∈ ss').
        { apply list_elem_of_filter. split.
          - intros E. apply Hneq. by rewrite Hc, E.
          - by eapply list_elem_of_lookup_2. }
        destruct (findSession_is_Some (session_id cur) ss' cur Hin eq_refl)
          as [[j cur'] Hf].
        exists j, cur'. rewrite Hf.
        apply findSession_Some in Hf as [_ Hid]. rewrite Hid.
        split; [done |]. split; [done |].
        intros E. exfalso. apply Hneq. by rewrite Hc. }
    destruct Hcur' as (j & cur' & Hg & Hcj & Hhead).
    rewrite Hg.
    destruct (loadSession_plugin cur' std) as [Hp Ha].
    rewrite Hp, Ha.
    split; [| split; [| split]].
    + rewrite Hs'. fold ss'. intros E. rewrite E in Hlen'. cbn in Hlen'. lia.
    + rewrite (getCurrentSession_plugin std _ Hp), Hg. done.
    + intros H1. lia.
    + intros _. split; [exact Hs' |]. split; [| split].
      * intros E. rewrite Hcj, Hs'. fold ss'. by rewrite (Hhead E).
      * intros E. rewrite Hc'. by rewrite bool_decide_eq_false_2.
      * by rewrite Hcj.
Qed.

(** A run of [deleteSessionWithConfirm_keeps_current]: in the demo the
    sessions are [B] (current) and [A]; deleting [B] makes [A] current. *)
Lemma deleteSessionWithConfirm_keeps_current_witness :
  NoDup (session_id <$> sessions (plugin Demo.switched))
  ∧ Forall (λ s, session_id s ≠ "") (sessions (plugin Demo.switched))
  ∧ is_Some (getCurrentSession Demo.switched)
  ∧ currentSessionId (plugin Demo.switched) = Some "B"
  ∧ is_Some (getCurrentSession (deleteSessionWithConfirm "B" Demo.switched)).
Proof.
  assert (H1 : NoDup (session_id <$> sessions (plugin Demo.switched))).
  { vm_compute. apply (bool_decide_unpack _). vm_compute. exact I. }
  assert (H2 : Forall (λ s, session_id s ≠ "") (sessions (plugin Demo.switched))).
  { vm_compute. repeat constructor; discriminate. }
  assert (H3 : is_Some (getCurrentSession Demo.switched)).
  { vm_compute. eexists. reflexivity. }
  split; [exact H1 |]. split; [exact H2 |]. split; [exact H3 |].
  split; [vm_compute; reflexivity |].
  exact (proj1 (proj2 (deleteSessionWithConfirm_keeps_current "B" Demo.switched
                         H1 H2 H3))).
Defined.
